(** * Exosky: the constellation viewer of [main.py]

    A shallow embedding of the non-graphical behaviour of [MainWindow]:
    the directory scan ([load_constellations], [get_name_from_xml]), the
    selection list ([generate_buttons]), the per-file extraction
    ([extract_constellation_data]), the equatorial-to-Cartesian transform
    ([convert_to_cartesian]) and the plotting path ([show_details_window],
    [draw_constellation]).

    Python's [float] is IEEE 754 binary64, which is what Rocq's primitive
    [float] is; exceptions are values of [result]; [print] appends a line to
    an explicit standard output. *)

From Stdlib Require Import ZArith NArith List String Ascii Bool Lia.
From Stdlib Require Import Floats.
Import ListNotations.

Local Open Scope string_scope.
Local Open Scope list_scope.

(** ** Exceptions and results *)

Module Py.

(** The exception classes the program can meet. All of them derive from
    [Exception], so [except Exception] catches every one. *)
Inductive exc_class : Type :=
  | AttributeError
  | ValueError
  | TypeError
  | ParseError
  | OSError.

Record exc : Type := Exc { exc_cls : exc_class; exc_str : string }.

Inductive result (A : Type) : Type :=
  | Ok (a : A)
  | Raise (e : exc).

Arguments Ok {A} a.
Arguments Raise {A} e.

Definition bind {A B : Type} (r : result A) (k : A -> result B) : result B :=
  match r with
  | Ok a => k a
  | Raise e => Raise e
  end.

Definition raises {A : Type} (r : result A) : bool :=
  match r with
  | Ok _ => false
  | Raise _ => true
  end.

End Py.

Import Py.

Notation "x <- c ;; k" := (Py.bind c (fun x => k))
  (at level 61, c at next level, right associativity).

(** ** Python strings

    A [string] is read as a sequence of code points below 256. *)

Module PyStr.

(** [str.isspace] on the code points below 256: TAB, LF, VT, FF, CR, the four
    separators FS, GS, RS, US, the space, NEL and the no-break space. *)
Definition is_space (c : ascii) : bool :=
  let n := N_of_ascii c in
  ((9 <=? n) && (n <=? 13) || (28 <=? n) && (n <=? 32)
   || (n =? 133) || (n =? 160))%N.

Definition is_digit (c : ascii) : bool :=
  let n := N_of_ascii c in ((48 <=? n) && (n <=? 57))%N.

Definition digit_val (c : ascii) : N := (N_of_ascii c - 48)%N.

Definition is_empty (s : string) : bool :=
  match s with
  | EmptyString => true
  | String _ _ => false
  end.

(** [s.split()] with no separator: the maximal runs of non-whitespace. [cur]
    is the run being read. *)
Fixpoint split_from (cur s : string) : list string :=
  match s with
  | EmptyString => if is_empty cur then [] else [cur]
  | String c s' =>
      if is_space c
      then (if is_empty cur then split_from "" s' else cur :: split_from "" s')
      else split_from (cur ++ String c "") s'
  end.

Definition split (s : string) : list string := split_from "" s.

Fixpoint lstrip (s : string) : string :=
  match s with
  | String c s' => if is_space c then lstrip s' else s
  | EmptyString => EmptyString
  end.

Fixpoint rstrip (s : string) : string :=
  match s with
  | EmptyString => EmptyString
  | String c s' =>
      let t := rstrip s' in
      if is_empty t && is_space c then EmptyString else String c t
  end.

Definition strip (s : string) : string := rstrip (lstrip s).

(** [s.endswith(suffix)] *)
Definition endswith (s suffix : string) : bool :=
  let n := String.length s in
  let k := String.length suffix in
  (k <=? n)%nat && String.eqb (substring (n - k) k s) suffix.

Definition startswith (s pre : string) : bool := prefix pre s.

(** [os.path.join(a, b)] of [posixpath], for two components. *)
Definition path_join (a b : string) : string :=
  if startswith b "/" then b
  else if is_empty a || endswith a "/" then a ++ b
  else a ++ "/" ++ b.

(** ASCII lower case, as the inf/nan recogniser of [float] uses it. *)
Definition lower (c : ascii) : ascii :=
  let n := N_of_ascii c in
  if ((65 <=? n) && (n <=? 90))%N then ascii_of_N (n + 32) else c.

Fixpoint lower_str (s : string) : string :=
  match s with
  | EmptyString => EmptyString
  | String c s' => String (lower c) (lower_str s')
  end.

Fixpoint contains (c : ascii) (s : string) : bool :=
  match s with
  | EmptyString => false
  | String x s' => Ascii.eqb x c || contains c s'
  end.

Definition hex_digit (n : N) : ascii :=
  if (n <? 10)%N then ascii_of_N (48 + n) else ascii_of_N (87 + n).

(** One character of [repr(s)]: the quote in use and the backslash are
    escaped, TAB, LF and CR have their letters, and what is not printable
    (controls, DEL, 0x80 to 0xa0, the soft hyphen) is written in hex. *)
Definition repr_char (quote c : ascii) : string :=
  let n := N_of_ascii c in
  let backslash := "092"%char in
  let escaped (x : ascii) : string := String backslash (String x "") in
  if Ascii.eqb c quote || Ascii.eqb c backslash then escaped c
  else if (n =? 9)%N then escaped "t"%char
  else if (n =? 10)%N then escaped "n"%char
  else if (n =? 13)%N then escaped "r"%char
  else if ((n <? 32) || (n =? 127) || (128 <=? n) && (n <=? 160)
           || (n =? 173))%N
  then String backslash
         (String "x"%char (String (hex_digit (n / 16))
                             (String (hex_digit (n mod 16)) "")))
  else String c "".

Fixpoint repr_body (quote : ascii) (s : string) : string :=
  match s with
  | EmptyString => EmptyString
  | String c s' => repr_char quote c ++ repr_body quote s'
  end.

(** [repr(s)]: single quotes, unless the string has one and no double
    quote. *)
Definition repr (s : string) : string :=
  let single := "039"%char in
  let double := "034"%char in
  let quote := if contains single s && negb (contains double s)
               then double else single in
  String quote (repr_body quote s ++ String quote "").

(** Truthiness of an optional text: [None] and [''] are false. *)
Definition truthy (t : option string) : bool :=
  match t with
  | None => false
  | Some s => negb (is_empty s)
  end.

End PyStr.

(** ** Python floats *)

Module PyFloat.

Import PyStr.

Local Open Scope Z_scope.

(** The value [(-1)^sgn * m * 10^e], rounded to the nearest binary64, ties
    to even. For [e < 0] the quotient [m * 2^k / 10^(-e)] is taken with at
    least 64 significant bits and handed to the rounding of [SpecFloat]
    together with the position of the remainder. The two early exits keep
    the powers of ten small: beyond them the value is above the largest
    finite float, or below half the smallest subnormal. *)
Definition of_decimal (sgn : bool) (m : Z) (e : Z) : float :=
  if m <=? 0 then (if sgn then neg_zero else zero)
  else if 400 <? e then (if sgn then neg_infinity else infinity)
  else if Z.log2 m / 3 + 2 + e <? -400 then (if sgn then neg_zero else zero)
  else if 0 <=? e then
    SF2Prim (binary_normalize prec emax
               (if sgn then - (m * 10 ^ e) else m * 10 ^ e) 0 sgn)
  else
    let d := 10 ^ (- e) in
    let k := Z.max 0 (64 + Z.log2_up d - Z.log2 m) in
    let n := m * 2 ^ k in
    let q := n / d in
    let r := n mod d in
    let l := if r =? 0 then loc_Exact else loc_Inexact (2 * r ?= d) in
    SF2Prim (binary_round_aux prec emax sgn q (- k) l).

(** Underscores are allowed only between two digits; they are removed
    before the number is read. *)
Fixpoint drop_underscores (prev : ascii) (s : string) : option string :=
  match s with
  | EmptyString => if Ascii.eqb prev "_" then None else Some EmptyString
  | String c s' =>
      if Ascii.eqb c "_" then
        if is_digit prev then drop_underscores c s' else None
      else if Ascii.eqb prev "_" && negb (is_digit c) then None
      else option_map (String c) (drop_underscores c s')
  end.

(** The digits at the head of [s]: their value on top of [acc], how many
    there are, and what follows them. *)
Fixpoint digits_span (s : string) (acc : Z) (n : Z) : Z * Z * string :=
  match s with
  | String c s' =>
      if is_digit c
      then digits_span s' (10 * acc + Z.of_N (digit_val c)) (n + 1)
      else (acc, n, s)
  | EmptyString => (acc, n, s)
  end.

Definition read_sign (s : string) : bool * string :=
  match s with
  | String "-" s' => (true, s')
  | String "+" s' => (false, s')
  | _ => (false, s)
  end.

(** [[digitpart] "." digitpart | digitpart ["."]] followed by an optional
    [("e" | "E") [sign] digitpart]: the mantissa as an integer and the power
    of ten that scales it. *)
Definition read_decimal (s : string) : option (Z * Z) :=
  let '(ip, ni, r1) := digits_span s 0 0 in
  let '(m, nf, r2) :=
    match r1 with
    | String "." r => digits_span r ip 0
    | _ => (ip, 0, r1)
    end in
  if ni + nf =? 0 then None
  else
    match r2 with
    | EmptyString => Some (m, - nf)
    | String c r3 =>
        if Ascii.eqb (lower c) "e" then
          let '(es, r4) := read_sign r3 in
          let '(ev, ne, r5) := digits_span r4 0 0 in
          if (0 <? ne) && is_empty r5
          then Some (m, (if es then - ev else ev) - nf)
          else None
        else None
    end.

Definition read_float (s : string) : option float :=
  match drop_underscores "000" s with
  | None => None
  | Some t =>
      let '(sgn, body) := read_sign t in
      let w := lower_str body in
      if String.eqb w "inf" || String.eqb w "infinity"
      then Some (if sgn then neg_infinity else infinity)
      else if String.eqb w "nan" then Some nan
      else option_map (fun me => of_decimal sgn (fst me) (snd me))
                      (read_decimal body)
  end.

(** The whitespace of C's [isspace]: TAB, LF, VT, FF, CR and the space. *)
Definition is_c_space (c : ascii) : bool :=
  let n := N_of_ascii c in ((9 <=? n) && (n <=? 13) || (n =? 32))%N.

Fixpoint is_ascii_str (s : string) : bool :=
  match s with
  | EmptyString => true
  | String c s' => (N_of_ascii c <? 128)%N && is_ascii_str s'
  end.

Fixpoint lstrip_by (sp : ascii -> bool) (s : string) : string :=
  match s with
  | String c s' => if sp c then lstrip_by sp s' else s
  | EmptyString => EmptyString
  end.

Fixpoint rstrip_by (sp : ascii -> bool) (s : string) : string :=
  match s with
  | EmptyString => EmptyString
  | String c s' =>
      let t := rstrip_by sp s' in
      if is_empty t && sp c then EmptyString else String c t
  end.

(** What [float] ignores around the literal: in an ASCII string the
    whitespace of C; otherwise every whitespace of [str], which is first
    turned into spaces. *)
Definition float_strip (s : string) : string :=
  let sp := if is_ascii_str s then is_c_space else is_space in
  rstrip_by sp (lstrip_by sp s).

(** [float(s)] for a [str]: surrounding whitespace is ignored, anything
    that is not a float literal raises [ValueError]. *)
Definition of_str (s : string) : result float :=
  match read_float (float_strip s) with
  | Some f => Ok f
  | None =>
      Raise (Exc ValueError ("could not convert string to float: " ++ repr s))
  end.

(** [float(x)] when [x] is the text of an XML element, which is [None] for
    an element without text. *)
Definition of_text (t : option string) : result float :=
  match t with
  | Some s => of_str s
  | None =>
      Raise (Exc TypeError
        "float() argument must be a string or a real number, not 'NoneType'")
  end.

End PyFloat.

(** ** The [math] module

    [math.cos] and [math.sin] wrap the C library; which double they return
    for a finite argument is the platform's business, so the two C functions
    are an interface. *)

Class Libm : Type := {
  libm_cos : float -> float;
  libm_sin : float -> float
}.

Module PyMath.

Local Open Scope float_scope.

(** [Py_MATH_PI], the double nearest to pi. *)
Definition pi : float := 0x1.921fb54442d18p+1.

Definition degToRad : float := Eval vm_compute in pi / 180.

(** [math.radians(x)] *)
Definition radians (x : float) : float := x * degToRad.

Definition domain_error : exc := Exc ValueError "math domain error".

(** [math.cos(x)] and [math.sin(x)]: an infinite argument is an invalid
    operation, which Python reports as [ValueError]; a NaN goes through. *)
Definition cos `{Libm} (x : float) : result float :=
  if is_infinity x then Raise domain_error else Ok (libm_cos x).

Definition sin `{Libm} (x : float) : result float :=
  if is_infinity x then Raise domain_error else Ok (libm_sin x).

(** Taylor polynomials around 0, a stand-in for the C library where a
    concrete one is needed to evaluate the program. *)
Definition poly_cos (x : float) : float :=
  let x2 := x * x in
  1 - x2 / 2 + x2 * x2 / 24 - x2 * x2 * x2 / 720.

Definition poly_sin (x : float) : float :=
  let x2 := x * x in
  x - x * x2 / 6 + x * x2 * x2 / 120.

Definition poly_libm : Libm := {| libm_cos := poly_cos; libm_sin := poly_sin |}.

End PyMath.

(** ** XML documents and the file system *)

Module Xml.

(** An [xml.etree.ElementTree.Element]: its tag, its text ([None] when the
    element has none) and its children in document order. *)
#[warnings="-register-all"]
Inductive element : Type :=
  | Element (tag : string) (text : option string) (children : list element).

Definition tag (e : element) : string :=
  match e with Element t _ _ => t end.

Definition text (e : element) : option string :=
  match e with Element _ x _ => x end.

Definition children (e : element) : list element :=
  match e with Element _ _ c => c end.

(** [root.find(t)] for a plain tag: the first direct child with that tag. *)
Definition find (root : element) (t : string) : option element :=
  List.find (fun e => String.eqb (tag e) t) (children root).

(** [x.text] when [x] is what [find] returned. *)
Definition text_of (found : option element) : result (option string) :=
  match found with
  | Some e => Ok (text e)
  | None =>
      Raise (Exc AttributeError "'NoneType' object has no attribute 'text'")
  end.

End Xml.

(** What the program sees of the disk: the entries of the scanned folder, in
    the order [os.listdir] gives them, and for every path the root element
    [ET.parse(path).getroot()] yields, or the exception it raises. *)
Record filesystem : Type := {
  fs_listdir : list string;
  fs_parse : string -> result Xml.element
}.

(** ** The data model *)

(** A selectable constellation, [{'name': ..., 'path': ...}]. *)
Record descriptor : Type := {
  d_name : string;
  d_path : string
}.

(** A star as extracted from a file. The three texts are stored as they
    are in the document, so each may be [None]. *)
Record star : Type := {
  s_name : option string;
  s_rightascension : option string;
  s_declination : option string;
  s_distance : float
}.

Record button : Type := {
  b_text : string;
  b_size : Z * Z;
  b_path : string
}.

Inductive hbox_item : Type :=
  | Stretch (factor : Z)
  | Widget (b : button).

Record MainWindow : Type := {
  xml_folder : string;
  constelaciones : list descriptor;
  buttons : list button;
  button_layout : list (list hbox_item)
}.

Inductive color : Type :=
  | ColorScale (values : list float) (scale : string)
  | ColorName (name : string).

Record trace : Type := {
  tr_name : string;
  tr_x : list float;
  tr_y : list float;
  tr_z : list float;
  tr_text : list (option string);
  tr_size : Z;
  tr_color : color
}.

Record figure : Type := {
  fig_traces : list trace;
  fig_title : string
}.

(** What the user observes: the lines printed and the figures shown. *)
Record world : Type := {
  stdout : list string;
  shown : list figure
}.

Definition print (line : string) (w : world) : world :=
  {| stdout := stdout w ++ [line]; shown := shown w |}.

Definition show (f : figure) (w : world) : world :=
  {| stdout := stdout w; shown := shown w ++ [f] |}.

Definition empty_world : world := {| stdout := []; shown := [] |}.

Definition print_all (lines : list string) (w : world) : world :=
  {| stdout := stdout w ++ lines; shown := shown w |}.

(** ** The program: [class MainWindow] *)

Import PyStr.

(** [x.split()] when [x] is a stored text: [None] has no such method. *)
Definition text_split (t : option string) : result (list string) :=
  match t with
  | Some s => Ok (split s)
  | None =>
      Raise (Exc AttributeError "'NoneType' object has no attribute 'split'")
  end.

Definition not_enough (got : string) : exc :=
  Exc ValueError
    ("not enough values to unpack (expected 3, got " ++ got ++ ")").

Definition too_many : exc :=
  Exc ValueError "too many values to unpack (expected 3)".

(** [a, b, c = map(float, tokens)]. The map is lazy: a token is converted
    when the unpacking asks for it, and after the third the unpacking asks
    once more to see that nothing is left. *)
Definition unpack3_floats (tokens : list string)
  : result (float * float * float) :=
  match tokens with
  | [] => Raise (not_enough "0")
  | [t1] => _ <- PyFloat.of_str t1 ;; Raise (not_enough "1")
  | [t1; t2] =>
      _ <- PyFloat.of_str t1 ;; _ <- PyFloat.of_str t2 ;;
      Raise (not_enough "2")
  | t1 :: t2 :: t3 :: rest =>
      a <- PyFloat.of_str t1 ;;
      b <- PyFloat.of_str t2 ;;
      c <- PyFloat.of_str t3 ;;
      match rest with
      | [] => Ok (a, b, c)
      | t4 :: _ => _ <- PyFloat.of_str t4 ;; Raise too_many
      end
  end.

Section Program.

Context {libm : Libm}.

Local Open Scope float_scope.

(** [convert_to_cartesian(self, right_ascension, declination, distance)] *)
Definition convert_to_cartesian
    (right_ascension declination : option string) (distance : float)
  : result (float * float * float) :=
  ra_tokens <- text_split right_ascension ;;
  ra <- unpack3_floats ra_tokens ;;
  let '(ra_h, ra_m, ra_s) := ra in
  dec_tokens <- text_split declination ;;
  dec <- unpack3_floats dec_tokens ;;
  let '(dec_d, dec_m, dec_s) := dec in
  let ra_degrees := 15 * (ra_h + ra_m / 60 + ra_s / 3600) in
  let sign := if dec_d <? 0 then -1 else 1 in
  let dec_degrees := sign * (abs dec_d + dec_m / 60 + dec_s / 3600) in
  let ra_radians := PyMath.radians ra_degrees in
  let dec_radians := PyMath.radians dec_degrees in
  cd <- PyMath.cos dec_radians ;;
  cr <- PyMath.cos ra_radians ;;
  let x := distance * cd * cr in
  cd' <- PyMath.cos dec_radians ;;
  sr <- PyMath.sin ra_radians ;;
  let y := distance * cd' * sr in
  sd <- PyMath.sin dec_radians ;;
  let z := distance * sd in
  Ok (x, y, z).

(** [get_name_from_xml(self, xml_path)]: what it prints and what it
    returns. Every exception of the [try] block is caught. *)
Definition get_name_from_xml (fs : filesystem) (xml_path : string)
  : list string * option string :=
  match fs_parse fs xml_path with
  | Ok root =>
      match Xml.find root "name" with
      | Some name_element => ([], Xml.text name_element)
      | None => ([("No <name> tag found in " ++ xml_path)%string], None)
      end
  | Raise e =>
      ([("Error reading the file " ++ xml_path ++ ": " ++ exc_str e)%string],
       None)
  end.

(** One turn of the loop of [load_constellations]. *)
Definition load_step (fs : filesystem) (folder : string)
    (st : world * list descriptor) (xml_file : string)
  : world * list descriptor :=
  let '(w, cs) := st in
  if endswith xml_file ".xml" then
    let '(lines, name) := get_name_from_xml fs (path_join folder xml_file) in
    let w' := fold_left (fun acc l => print l acc) lines w in
    match name with
    | Some n =>
        if is_empty n then (w', cs)
        else (w', cs ++ [{| d_name := n; d_path := path_join folder xml_file |}])
    | None => (w', cs)
    end
  else (w, cs).

(** [load_constellations(self)] *)
Definition load_constellations (fs : filesystem) (w : world) (self : MainWindow)
  : world * MainWindow :=
  let '(w', cs) :=
    fold_left (load_step fs (xml_folder self)) (fs_listdir fs)
              (w, constelaciones self) in
  (w', {| xml_folder := xml_folder self;
          constelaciones := cs;
          buttons := buttons self;
          button_layout := button_layout self |}).

Definition make_button (constelacion : descriptor) : button :=
  {| b_text := d_name constelacion;
     b_size := (250, 50)%Z;
     b_path := d_path constelacion |}.

(** [generate_buttons(self)]: one centred button per loaded constellation. *)
Definition generate_buttons (self : MainWindow) : MainWindow :=
  fold_left
    (fun (acc : MainWindow) (constelacion : descriptor) =>
       let b := make_button constelacion in
       {| xml_folder := xml_folder acc;
          constelaciones := constelaciones acc;
          buttons := buttons acc ++ [b];
          button_layout :=
            button_layout acc ++ [[Stretch 1; Widget b; Stretch 1]] |})
    (constelaciones self) self.

(** [__init__] up to the two calls of [setup_ui] that fill the window. *)
Definition new_window (folder : string) : MainWindow :=
  {| xml_folder := folder; constelaciones := []; buttons := [];
     button_layout := [] |}.

Definition setup_ui (fs : filesystem) (w : world) (self : MainWindow)
  : world * MainWindow :=
  let '(w', self') := load_constellations fs w self in
  (w', generate_buttons self').

(** The [try] block of [extract_constellation_data]. *)
Definition extract_try (fs : filesystem) (xml_path : string)
  : result (list star) :=
  root <- fs_parse fs xml_path ;;
  name <- Xml.text_of (Xml.find root "name") ;;
  right_ascension <- Xml.text_of (Xml.find root "rightascension") ;;
  declination <- Xml.text_of (Xml.find root "declination") ;;
  distance_text <- Xml.text_of (Xml.find root "distance") ;;
  distance <- PyFloat.of_text distance_text ;;
  Ok [ {| s_name := name;
          s_rightascension := right_ascension;
          s_declination := declination;
          s_distance := distance |} ].

(** [extract_constellation_data(self, xml_path)]: the [except] clause
    turns every exception of the block into a printed line and [None]. *)
Definition extract_constellation_data (fs : filesystem) (w : world)
    (xml_path : string) : world * option (list star) :=
  match extract_try fs xml_path with
  | Ok constellation => (w, Some constellation)
  | Raise e =>
      (print ("Error extracting data from " ++ xml_path ++ ": " ++ exc_str e)
             w,
       None)
  end.

(** The loop of [draw_constellation]: the four lists grow together, and the
    first conversion that raises ends the call. *)
Fixpoint convert_all (constellation : list star)
    (acc : list float * list float * list float * list (option string))
  : result (list float * list float * list float * list (option string)) :=
  match constellation with
  | [] => Ok acc
  | st :: rest =>
      let '(x_vals, y_vals, z_vals, names) := acc in
      xyz <- convert_to_cartesian (s_rightascension st) (s_declination st)
                                  (s_distance st) ;;
      let '(x, y, z) := xyz in
      convert_all rest
        (x_vals ++ [x], y_vals ++ [y], z_vals ++ [z], names ++ [s_name st])
  end.

Definition earth : trace :=
  {| tr_name := "Earth"; tr_x := [0]; tr_y := [0]; tr_z := [0];
     tr_text := [Some "Earth"]; tr_size := 10%Z; tr_color := ColorName "blue" |}.

(** [draw_constellation(self, constellation)]. Building and showing the
    figure is taken to succeed. *)
Definition draw_constellation (w : world) (constellation : list star)
  : world * result unit :=
  match convert_all constellation ([], [], [], []) with
  | Raise e => (w, Raise e)
  | Ok (x_vals, y_vals, z_vals, names) =>
      let stars :=
        {| tr_name := "Stars"; tr_x := x_vals; tr_y := y_vals; tr_z := z_vals;
           tr_text := names; tr_size := 5%Z;
           tr_color := ColorScale z_vals "Viridis" |} in
      (show {| fig_traces := [stars; earth];
               fig_title := "3D Map of the Constellation and Earth" |} w,
       Ok tt)
  end.

(** [show_details_window(self, xml_path)], the slot behind every button. *)
Definition show_details_window (fs : filesystem) (w : world)
    (xml_path : string) : world * result unit :=
  let '(w', constellation_data) := extract_constellation_data fs w xml_path in
  match constellation_data with
  | Some ((_ :: _) as constellation) => draw_constellation w' constellation
  | _ => (w', Ok tt)
  end.

End Program.

(** ** Vocabulary of the statements *)

Section Vocabulary.

Context {libm : Libm}.

Local Open Scope float_scope.

(** An angle string in the shape the data model asks for: exactly three
    whitespace-separated tokens, each a float literal. *)
Definition read_angle (s : string) : option (float * float * float) :=
  match split s with
  | [t1; t2; t3] =>
      match PyFloat.of_str t1, PyFloat.of_str t2, PyFloat.of_str t3 with
      | Ok a, Ok b, Ok c => Some (a, b, c)
      | _, _, _ => None
      end
  | _ => None
  end.

(** Lines 145 to 152 as a function of the two angles in degrees. *)
Definition spherical (ra_deg dec_deg distance : float)
  : result (float * float * float) :=
  let ra_radians := PyMath.radians ra_deg in
  let dec_radians := PyMath.radians dec_deg in
  cd <- PyMath.cos dec_radians ;;
  cr <- PyMath.cos ra_radians ;;
  sr <- PyMath.sin ra_radians ;;
  sd <- PyMath.sin dec_radians ;;
  Ok (distance * cd * cr, distance * cd * sr, distance * sd).

End Vocabulary.

Fixpoint has_space (s : string) : bool :=
  match s with
  | EmptyString => false
  | String c s' => is_space c || has_space s'
  end.

(** A token: non-empty and free of whitespace. *)
Definition is_token (s : string) : bool := negb (is_empty s) && negb (has_space s).

(** [e] is the first child of [root] with tag [t]. *)
Definition first_child (root : Xml.element) (t : string) (e : Xml.element)
  : Prop :=
  exists pre post,
    Xml.children root = pre ++ e :: post
    /\ Xml.tag e = t
    /\ forall x, In x pre -> Xml.tag x <> t.

(** The name under which the file at [path] is listed, when it is: the file
    parses, its root has a [<name>] child, and the first one has a text that
    is not empty. *)
Definition listed_name (fs : filesystem) (path : string) : option string :=
  match fs_parse fs path with
  | Ok root =>
      match Xml.find root "name" with
      | Some e =>
          match Xml.text e with
          | Some n => if is_empty n then None else Some n
          | None => None
          end
      | None => None
      end
  | Raise _ => None
  end.

Definition descriptors_of (fs : filesystem) (folder xml_file : string)
  : list descriptor :=
  if endswith xml_file ".xml" then
    match listed_name fs (path_join folder xml_file) with
    | Some n => [{| d_name := n; d_path := path_join folder xml_file |}]
    | None => []
    end
  else [].

(** What scanning one entry prints: a line for a file that cannot be parsed
    and for one without a [<name>] child, nothing otherwise. *)
Definition scan_log (fs : filesystem) (folder xml_file : string) : list string :=
  if endswith xml_file ".xml" then
    let path := path_join folder xml_file in
    match fs_parse fs path with
    | Ok root =>
        match Xml.find root "name" with
        | Some _ => []
        | None => [("No <name> tag found in " ++ path)%string]
        end
    | Raise e =>
        [("Error reading the file " ++ path ++ ": " ++ exc_str e)%string]
    end
  else [].

(** The file at [path] parses, its root has the four children, and the text
    of the first [<distance>] is a float literal. Nothing is asked of the
    other three texts. *)
Definition extractable (fs : filesystem) (path : string) : bool :=
  match fs_parse fs path with
  | Ok root =>
      match Xml.find root "name", Xml.find root "rightascension",
            Xml.find root "declination", Xml.find root "distance" with
      | Some _, Some _, Some _, Some d =>
          negb (raises (PyFloat.of_text (Xml.text d)))
      | _, _, _, _ => false
      end
  | Raise _ => false
  end.

(** ** Sample documents *)

Module Samples.

Import Xml.

Definition leaf (t s : string) : element := Element t (Some s) [].

Definition system (name ra dec dist : string) : element :=
  Element "system" None
    [leaf "name" name; leaf "rightascension" ra; leaf "declination" dec;
     leaf "distance" dist].

(** A well-formed file, one whose right ascension is not a number, one with
    an empty [<name/>], one without [<name>], and a file that does not
    parse. *)
Definition orion : element := system "Orion" "5 30 0" "-1 12 0" "1.5".

Definition bad_ra : element := system "Lyra" "abc" "38 47 0" "7.7".

Definition unnamed : element :=
  Element "system" None [Element "name" None []; leaf "distance" "4.2"].

Definition anonymous : element := Element "system" None [leaf "distance" "4.2"].

(** Two stars in one file. *)
Definition twins : element :=
  Element "system" None
    [leaf "name" "Castor"; leaf "rightascension" "7 34 36";
     leaf "declination" "31 53 18"; leaf "distance" "15.6";
     leaf "name" "Pollux"; leaf "rightascension" "7 45 19";
     leaf "declination" "28 1 34"; leaf "distance" "10.4"].

Definition syntax_error : exc :=
  Exc ParseError "syntax error: line 1, column 0".

Definition disk (files : list (string * result element)) (listing : list string)
  : filesystem :=
  {| fs_listdir := listing;
     fs_parse := fun path =>
       match List.find (fun f => String.eqb (fst f) path) files with
       | Some f => snd f
       | None =>
           Raise (Exc OSError ("[Errno 2] No such file or directory: '"
                                 ++ path ++ "'"))
       end |}.

Definition files : list (string * result element) :=
  [("sys/orion.xml", Ok orion); ("sys/lyra.xml", Ok bad_ra);
   ("sys/unnamed.xml", Ok unnamed); ("sys/anonymous.xml", Ok anonymous);
   ("sys/twins.xml", Ok twins); ("sys/broken.xml", Raise syntax_error)].

Definition full : filesystem :=
  disk files ["orion.xml"; "lyra.xml"; "unnamed.xml"; "notes.txt";
              "anonymous.xml"; "twins.xml"; "broken.xml"].

Definition only_unnamed : filesystem := disk files ["unnamed.xml"].

Definition nothing_valid : filesystem :=
  disk files ["notes.txt"; "broken.xml"; "anonymous.xml"; "unnamed.xml"].

End Samples.

(** ** Order on the positive floats

    The floats as [SpecFloat] describes them: a sign, a mantissa and an
    exponent, or a zero, an infinity, or NaN. *)

Module FloatOrder.

Local Open Scope Z_scope.


(** Strictly positive: a positive finite float or plus infinity. *)
Definition is_pos (x : spec_float) : bool :=
  match x with
  | S754_finite false _ _ | S754_infinity false => true
  | _ => false
  end.


(** [x <= y] between strictly positive floats, read on exponents and
    mantissas. *)
Definition pos_le (x y : spec_float) : Prop :=
  match x, y with
  | S754_finite false m1 e1, S754_finite false m2 e2 =>
      e1 < e2 \/ (e1 = e2 /\ Zpos m1 <= Zpos m2)
  | S754_finite false _ _, S754_infinity false => True
  | S754_infinity false, S754_infinity false => True
  | _, _ => False
  end.

End FloatOrder.

(** ** Vocabulary of the further properties *)

Fixpoint all_space (s : string) : bool :=
  match s with
  | EmptyString => true
  | String c s' => is_space c && all_space s'
  end.

(** The row [generate_buttons] lays out around a button. *)
Definition button_row (b : button) : list hbox_item :=
  [Stretch 1; Widget b; Stretch 1].

Definition x_of (p : float * float * float) : float := fst (fst p).
Definition y_of (p : float * float * float) : float := snd (fst p).
Definition z_of (p : float * float * float) : float := snd p.

(** The figure [draw_constellation] builds from the converted points and
    the names: the stars, coloured by height, and the Earth. *)
Definition constellation_figure
    (points : list (float * float * float)) (names : list (option string))
  : figure :=
  {| fig_traces :=
       [ {| tr_name := "Stars";
            tr_x := map x_of points;
            tr_y := map y_of points;
            tr_z := map z_of points;
            tr_text := names;
            tr_size := 5%Z;
            tr_color := ColorScale (map z_of points) "Viridis" |};
         earth ];
     fig_title := "3D Map of the Constellation and Earth" |}.

Section Conversions.

Context {libm : Libm}.

(** The conversion of one extracted star. *)
Definition convert_star (st : star) : result (float * float * float) :=
  convert_to_cartesian (s_rightascension st) (s_declination st)
                       (s_distance st).

End Conversions.

(** The same root with further children after its own. *)
Definition with_more_children (root : Xml.element) (extra : list Xml.element)
  : Xml.element :=
  Xml.Element (Xml.tag root) (Xml.text root) (Xml.children root ++ extra).

Module MoreSamples.

Import Samples.

(** The disk of [Samples.full] with a readable "notes.txt". *)
Definition full_with_notes : filesystem :=
  disk (("sys/notes.txt", Ok orion) :: files) (fs_listdir full).

(** "sys/orion.xml" with a second star appended. *)
Definition orion_and_lyra : filesystem :=
  disk [("sys/orion.xml",
         Ok (with_more_children orion (Xml.children bad_ra)))]
       ["orion.xml"].

End MoreSamples.

(** ** Floating-point facts *)

Module FloatFacts.

Local Open Scope Z_scope.

Lemma digits2_pos_shift52 (m : positive) :
  Zpos (digits2_pos (Pos.mul 4503599627370496 m))
  = Zpos (digits2_pos m) + 52.
Proof.
  cbn [Pos.mul digits2_pos]. rewrite !Pos2Z.inj_succ. lia.
Qed.

Lemma shr_shift52 (m : positive) :
  iter_pos shr_1 52
    {| shr_m := Zpos (Pos.mul 4503599627370496 m);
       shr_r := false; shr_s := false |}
  = {| shr_m := Zpos m; shr_r := false; shr_s := false |}.
Proof. reflexivity. Qed.

(** Multiplying by [1] or [-1], whose mantissa is [2^52] at exponent [-52],
    rounds nothing away. *)
Lemma SFmul_unit (b : bool) (s : spec_float) :
  valid_binary s = true ->
  SFmul prec emax (S754_finite b 4503599627370496 (-52)) s
  = if b then SFopp s else s.
Proof.
  destruct s as [sy | sy | | sy my ey]; intros Hv;
    try (destruct b; try destruct sy; reflexivity).
  cbn [SFmul]. cbn [SpecFloat.valid_binary] in Hv.
  unfold bounded, canonical_mantissa in Hv.
  apply andb_true_iff in Hv. destruct Hv as [Hc Hb].
  apply Z.eqb_eq in Hc.
  unfold binary_round_aux.
  assert (E1 : shr_fexp prec emax (Zpos (Pos.mul 4503599627370496 my))
                        (-52 + ey) loc_Exact
               = ({| shr_m := Zpos my; shr_r := false; shr_s := false |}, ey)).
  { unfold shr_fexp. cbn [Zdigits2]. rewrite digits2_pos_shift52.
    replace (Z.pos (digits2_pos my) + 52 + (-52 + ey))
      with (Z.pos (digits2_pos my) + ey) by lia.
    rewrite Hc. replace (ey - (-52 + ey)) with 52 by lia.
    cbn [shr_record_of_loc]. unfold shr. rewrite shr_shift52. f_equal. lia. }
  rewrite E1. cbn [shr_m loc_of_shr_record round_nearest_even].
  assert (E2 : shr_fexp prec emax (Zpos my) ey loc_Exact
               = ({| shr_m := Zpos my; shr_r := false; shr_s := false |}, ey)).
  { unfold shr_fexp. cbn [Zdigits2]. rewrite Hc, Z.sub_diag. reflexivity. }
  rewrite E2. cbn [shr_m]. rewrite Hb.
  destruct b, sy; reflexivity.
Qed.

Local Open Scope float_scope.


Lemma mul_one (v : float) : 1 * v = v.
Proof.
  apply Prim2SF_inj. rewrite mul_spec.
  change (Prim2SF 1) with (S754_finite false 4503599627370496 (-52)).
  unfold SF64mul. now rewrite SFmul_unit by apply Prim2SF_valid.
Qed.

End FloatFacts.

(** ** Rounding never goes below a representable lower bound *)

Module FloatOrderFacts.

Import FloatOrder.

Local Open Scope Z_scope.


















Lemma pos_le_refl (x : spec_float) : is_pos x = true -> pos_le x x.
Proof.
  destruct x as [| [] | | [] m e]; cbn; try discriminate; intros _;
    [exact I | lia].
Qed.





Local Open Scope float_scope.






End FloatOrderFacts.

(** ** Splitting and reading angle strings *)

Lemma append_assoc (a b c : string) : ((a ++ b) ++ c = a ++ (b ++ c))%string.
Proof. induction a as [| x a IH]; cbn; [reflexivity | now rewrite IH]. Qed.

Lemma append_empty_r (a : string) : (a ++ "")%string = a.
Proof. induction a as [| x a IH]; cbn; [reflexivity | now rewrite IH]. Qed.

(** A run without whitespace is swallowed whole into the current token. *)
Lemma split_from_run (t cur rest : string) :
  has_space t = false ->
  split_from cur (t ++ rest) = split_from (cur ++ t) rest.
Proof.
  revert cur. induction t as [| c t IH]; intros cur Hs; cbn in *.
  - now rewrite append_empty_r.
  - apply orb_false_iff in Hs. destruct Hs as [Hc Ht].
    rewrite Hc, IH by exact Ht. now rewrite append_assoc.
Qed.

Lemma split_token_then_space (t rest : string) (c : ascii) :
  is_token t = true -> is_space c = true ->
  split_from "" (t ++ String c rest) = t :: split_from "" rest.
Proof.
  intros Ht Hc. unfold is_token in Ht. apply andb_true_iff in Ht.
  destruct Ht as [Hne Hns]. apply negb_true_iff in Hne, Hns.
  rewrite split_from_run by exact Hns. cbn. now rewrite Hc, Hne.
Qed.

Lemma split_last_token (t : string) :
  is_token t = true -> split_from "" t = [t].
Proof.
  intros Ht. unfold is_token in Ht. apply andb_true_iff in Ht.
  destruct Ht as [Hne Hns]. apply negb_true_iff in Hne, Hns.
  rewrite <- (append_empty_r t) at 1.
  rewrite split_from_run by exact Hns. cbn. now rewrite Hne.
Qed.

(** The string ["h m s"] splits into its three tokens. *)
Lemma split_three (t1 t2 t3 : string) :
  is_token t1 = true -> is_token t2 = true -> is_token t3 = true ->
  split (t1 ++ " " ++ t2 ++ " " ++ t3) = [t1; t2; t3].
Proof.
  intros H1 H2 H3. unfold split.
  change (t1 ++ " " ++ t2 ++ " " ++ t3)%string
    with (t1 ++ String " " (t2 ++ String " " t3))%string.
  rewrite split_token_then_space by (exact H1 || reflexivity).
  rewrite split_token_then_space by (exact H2 || reflexivity).
  now rewrite split_last_token.
Qed.

Lemma read_angle_three (t1 t2 t3 : string) (a b c : float) :
  is_token t1 = true -> is_token t2 = true -> is_token t3 = true ->
  PyFloat.of_str t1 = Ok a -> PyFloat.of_str t2 = Ok b ->
  PyFloat.of_str t3 = Ok c ->
  read_angle (t1 ++ " " ++ t2 ++ " " ++ t3) = Some (a, b, c).
Proof.
  intros H1 H2 H3 Ha Hb Hc. unfold read_angle.
  now rewrite split_three, Ha, Hb, Hc.
Qed.

(** The lazy unpacking accepts exactly the strings [read_angle] accepts. *)
Lemma unpack3_floats_read_angle (s : string) (t : float * float * float) :
  unpack3_floats (split s) = Ok t <-> read_angle s = Some t.
Proof.
  unfold read_angle, unpack3_floats.
  destruct (split s) as [| t1 [| t2 [| t3 [| t4 rest]]]]; cbn.
  - split; discriminate.
  - destruct (PyFloat.of_str t1); cbn; split; discriminate.
  - destruct (PyFloat.of_str t1); cbn; [| split; discriminate].
    destruct (PyFloat.of_str t2); cbn; split; discriminate.
  - destruct (PyFloat.of_str t1); cbn; [| split; discriminate].
    destruct (PyFloat.of_str t2); cbn; [| split; discriminate].
    destruct (PyFloat.of_str t3); cbn; [| split; discriminate].
    split; intros E; inversion E; reflexivity.
  - destruct (PyFloat.of_str t1); cbn; [| split; discriminate].
    destruct (PyFloat.of_str t2); cbn; [| split; discriminate].
    destruct (PyFloat.of_str t3); cbn; [| split; discriminate].
    destruct (PyFloat.of_str t4); cbn; split; discriminate.
Qed.

(** ** The coordinate transform *)

Section Transform.

Context {libm : Libm}.

Local Open Scope float_scope.

(** On an angle pair in the right shape the function is its lines 141 to
    152 applied to the six numbers. *)
Lemma convert_to_cartesian_spherical
    (ra dec : string) (h m s d dm ds distance : float) :
  read_angle ra = Some (h, m, s) ->
  read_angle dec = Some (d, dm, ds) ->
  convert_to_cartesian (Some ra) (Some dec) distance
  = spherical (15 * (h + m / 60 + s / 3600))
              ((if d <? 0 then -1 else 1) * (abs d + dm / 60 + ds / 3600))
              distance.
Proof.
  intros Hra Hdec.
  apply unpack3_floats_read_angle in Hra, Hdec.
  unfold convert_to_cartesian, spherical. cbn [text_split Py.bind].
  rewrite Hra, Hdec. cbn [Py.bind].
  destruct (PyMath.cos (PyMath.radians (_ * (abs d + _ + _)))); cbn [Py.bind];
    [| reflexivity].
  destruct (PyMath.cos (PyMath.radians (15 * _))); cbn [Py.bind];
    [| reflexivity].
  destruct (PyMath.sin (PyMath.radians (15 * _))); cbn [Py.bind];
    reflexivity.
Qed.

Lemma spherical_finite (ra_deg dec_deg distance : float) :
  is_infinity (PyMath.radians ra_deg) = false ->
  is_infinity (PyMath.radians dec_deg) = false ->
  spherical ra_deg dec_deg distance
  = Ok (distance * libm_cos (PyMath.radians dec_deg)
                 * libm_cos (PyMath.radians ra_deg),
        distance * libm_cos (PyMath.radians dec_deg)
                 * libm_sin (PyMath.radians ra_deg),
        distance * libm_sin (PyMath.radians dec_deg)).
Proof.
  intros Hra Hdec. unfold spherical, PyMath.cos, PyMath.sin.
  now rewrite Hra, Hdec.
Qed.

Lemma spherical_infinite_ra (ra_deg dec_deg distance : float) :
  is_infinity (PyMath.radians ra_deg) = true ->
  spherical ra_deg dec_deg distance = Raise PyMath.domain_error.
Proof.
  intros Hra. unfold spherical, PyMath.cos, PyMath.sin. rewrite Hra.
  now destruct (is_infinity (PyMath.radians dec_deg)).
Qed.

Lemma spherical_infinite_dec (ra_deg dec_deg distance : float) :
  is_infinity (PyMath.radians dec_deg) = true ->
  spherical ra_deg dec_deg distance = Raise PyMath.domain_error.
Proof.
  intros Hdec. unfold spherical, PyMath.cos. now rewrite Hdec.
Qed.

(** C1, amended. For every right-ascension string "h m s" and declination
    string "d m s" of three numeric tokens and every distance, provided
    neither angle in radians is infinite, [convert_to_cartesian] returns
    [(x, y, z)] with [x = dist*cos(dec)*cos(ra)], [y = dist*cos(dec)*sin(ra)],
    [z = dist*sin(dec)], where [ra = radians(15*(h + m/60 + s/3600))] and
    [dec = radians(sgn * (|d| + m/60 + s/3600))], [sgn] being [-1] when
    [d < 0] and [+1] otherwise. *)
Theorem convert_to_cartesian_formula
    (right_ascension declination : string)
    (h m s d dm ds dist : float) :
  read_angle right_ascension = Some (h, m, s) ->
  read_angle declination = Some (d, dm, ds) ->
  let sgn := if d <? 0 then -1 else 1 in
  let ra := PyMath.radians (15 * (h + m / 60 + s / 3600)) in
  let dec := PyMath.radians (sgn * (abs d + dm / 60 + ds / 3600)) in
  is_infinity ra = false ->
  is_infinity dec = false ->
  convert_to_cartesian (Some right_ascension) (Some declination) dist
  = Ok (dist * libm_cos dec * libm_cos ra,
        dist * libm_cos dec * libm_sin ra,
        dist * libm_sin dec).
Proof.
  intros Hra Hdec sgn ra dec Fra Fdec.
  rewrite (convert_to_cartesian_spherical _ _ _ _ _ _ _ _ _ Hra Hdec).
  now apply spherical_finite.
Qed.


(** C9. For every declination string whose degree token is a negative
    zero, the test [dec_d < 0] is false, the sign is taken as [+1], and
    [convert_to_cartesian] works with [dec_degrees = 0 + m/60 + s/3600]:
    the written minus sign is dropped. *)
Theorem negative_zero_declination_is_positive
    (right_ascension declination : string)
    (h m s dm ds dist : float) :
  read_angle right_ascension = Some (h, m, s) ->
  read_angle declination = Some (neg_zero, dm, ds) ->
  (neg_zero <? 0) = false
  /\ convert_to_cartesian (Some right_ascension) (Some declination) dist
     = spherical (15 * (h + m / 60 + s / 3600))
                 (0 + dm / 60 + ds / 3600) dist.
Proof.
  intros Hra Hdec. split; [reflexivity |].
  rewrite (convert_to_cartesian_spherical _ _ _ _ _ _ _ _ _ Hra Hdec).
  change (neg_zero <? 0) with false. cbv iota.
  rewrite FloatFacts.mul_one. reflexivity.
Qed.

(** C6. With a C library whose [cos(0)] is [1] and whose [sin(0)] is [0],
    RA = "0 0 0", Dec = "0 0 0" and distance 1 give exactly [(1, 0, 0)]. *)
Theorem convert_to_cartesian_origin :
  libm_cos 0 = 1 -> libm_sin 0 = 0 ->
  convert_to_cartesian (Some "0 0 0") (Some "0 0 0") 1 = Ok (1, 0, 0).
Proof.
  intros Hcos Hsin.
  rewrite (convert_to_cartesian_spherical "0 0 0" "0 0 0" 0 0 0 0 0 0)
    by reflexivity.
  rewrite spherical_finite by reflexivity.
  change (PyMath.radians (15 * (0 + 0 / 60 + 0 / 3600))) with 0.
  change (PyMath.radians ((if 0 <? 0 then -1 else 1)
                          * (abs 0 + 0 / 60 + 0 / 3600))) with 0.
  rewrite Hcos, Hsin. reflexivity.
Qed.

(** C8, amended. For every pair of angle strings of exactly three numeric
    tokens and every distance, provided neither angle in radians is
    infinite, [convert_to_cartesian] returns a triple, and any two calls
    on these arguments return the same one. *)
Theorem convert_to_cartesian_total_on_finite
    (right_ascension declination : string)
    (h m s d dm ds dist : float) :
  read_angle right_ascension = Some (h, m, s) ->
  read_angle declination = Some (d, dm, ds) ->
  is_infinity (PyMath.radians (15 * (h + m / 60 + s / 3600))) = false ->
  is_infinity (PyMath.radians ((if d <? 0 then -1 else 1)
                               * (abs d + dm / 60 + ds / 3600))) = false ->
  exists xyz,
    convert_to_cartesian (Some right_ascension) (Some declination) dist
    = Ok xyz
    /\ forall r,
         convert_to_cartesian (Some right_ascension) (Some declination) dist
         = r -> r = Ok xyz.
Proof.
  intros Hra Hdec Fra Fdec.
  rewrite (convert_to_cartesian_spherical _ _ _ _ _ _ _ _ _ Hra Hdec).
  rewrite spherical_finite by assumption.
  eexists. split; [reflexivity |]. intros r <-. reflexivity.
Qed.

End Transform.

(** *** The transform on concrete strings *)

Local Open Scope float_scope.

(* Decimal literals below stand for the nearest binary64, as in Python. *)
#[local] Set Warnings "-inexact-float".

Example read_angle_sexagesimal :
  read_angle "5 30 0" = Some (5, 30, 0)
  /\ read_angle "-45 30 0" = Some (-45, 30, 0)
  /\ read_angle "  12	7.5e0 -0.25 " = Some (12, 7.5, -0.25)
  /\ read_angle "12 30" = None
  /\ read_angle "12 30 0 0" = None
  /\ read_angle "12h 30m 0s" = None.
Proof. repeat split. Qed.

(** [float] on literals: correct rounding, both zeros, overflow to an
    infinity, the special names, underscores, and what it refuses. *)
Example of_str_literals :
  PyFloat.of_str "0.1" = Ok 0.1
  /\ PyFloat.of_str " 12.5 " = Ok 12.5
  /\ PyFloat.of_str "9007199254740993" = Ok 9007199254740992
  /\ PyFloat.of_str "1.7976931348623157e308" = Ok 0x1.fffffffffffffp+1023
  /\ PyFloat.of_str "5e-324" = Ok 0x0.0000000000001p-1022
  /\ PyFloat.of_str "2e-324" = Ok 0
  /\ PyFloat.of_str "-0.0" = Ok neg_zero
  /\ PyFloat.of_str "1e309" = Ok infinity
  /\ PyFloat.of_str "-Infinity" = Ok neg_infinity
  /\ PyFloat.of_str "NaN" = Ok nan
  /\ PyFloat.of_str "1_000.5" = Ok 1000.5
  /\ raises (PyFloat.of_str "1__0") = true
  /\ raises (PyFloat.of_str "1e") = true
  /\ raises (PyFloat.of_str ".") = true
  /\ raises (PyFloat.of_str "12h") = true
  /\ raises (PyFloat.of_str "") = true.
Proof. repeat split. Qed.

Lemma convert_to_cartesian_formula_witness :
  convert_to_cartesian (libm := PyMath.poly_libm)
    (Some "0 30 0") (Some "-1 30 0") 2
  = Ok (2 * PyMath.poly_cos (PyMath.radians (-1 * (abs (-1) + 30 / 60 + 0 / 3600)))
          * PyMath.poly_cos (PyMath.radians (15 * (0 + 30 / 60 + 0 / 3600))),
        2 * PyMath.poly_cos (PyMath.radians (-1 * (abs (-1) + 30 / 60 + 0 / 3600)))
          * PyMath.poly_sin (PyMath.radians (15 * (0 + 30 / 60 + 0 / 3600))),
        2 * PyMath.poly_sin (PyMath.radians (-1 * (abs (-1) + 30 / 60 + 0 / 3600)))).
Proof.
  exact (convert_to_cartesian_formula (libm := PyMath.poly_libm)
           "0 30 0" "-1 30 0" 0 30 0 (-1) 30 0 2
           eq_refl eq_refl eq_refl eq_refl).
Defined.

(** The claim as stated fails where the hour token is so large that the
    angle in degrees overflows: [15 * 1e308] is infinite, and [math.cos]
    raises on it, whatever the C library. *)
Lemma convert_to_cartesian_formula_overflow :
  read_angle "1e308 0 0" = Some (1e308, 0, 0)
  /\ read_angle "0 0 0" = Some (0, 0, 0)
  /\ 15 * (1e308 + 0 / 60 + 0 / 3600) = infinity
  /\ forall libm : Libm,
       convert_to_cartesian (Some "1e308 0 0") (Some "0 0 0") 1
       = Raise PyMath.domain_error.
Proof.
  do 3 (split; [reflexivity |]). intros libm.
  rewrite (convert_to_cartesian_spherical
             "1e308 0 0" "0 0 0" 1e308 0 0 0 0 0) by reflexivity.
  now apply spherical_infinite_ra.
Qed.



(** "-45 30 0" is 45.5 degrees south, not 44.5. *)
Example negative_declination_degrees :
  - (abs (-45) + 30 / 60 + 0 / 3600) = -45.5
  /\ (if -45 <? 0 then -1 else 1) * (abs (-45) + 30 / 60 + 0 / 3600) = -45.5.
Proof. split; reflexivity. Qed.

Lemma negative_zero_declination_is_positive_witness :
  (neg_zero <? 0) = false
  /\ convert_to_cartesian (libm := PyMath.poly_libm)
       (Some "0 0 0") (Some "-0 30 0") 1
     = spherical (libm := PyMath.poly_libm)
         (15 * (0 + 0 / 60 + 0 / 3600)) (0 + 30 / 60 + 0 / 3600) 1.
Proof.
  exact (negative_zero_declination_is_positive (libm := PyMath.poly_libm)
           "0 0 0" "-0 30 0" 0 0 0 30 0 1 eq_refl eq_refl).
Defined.

(** "-0 30 0" is read as half a degree north. *)
Example negative_zero_degrees :
  PyFloat.of_str "-0" = Ok neg_zero
  /\ (if neg_zero <? 0 then -1 else 1) * (abs neg_zero + 30 / 60 + 0 / 3600)
     = 0.5.
Proof. split; reflexivity. Qed.

Lemma convert_to_cartesian_origin_witness :
  convert_to_cartesian (libm := PyMath.poly_libm)
    (Some "0 0 0") (Some "0 0 0") 1 = Ok (1, 0, 0).
Proof.
  exact (convert_to_cartesian_origin (libm := PyMath.poly_libm)
           eq_refl eq_refl).
Defined.

Lemma convert_to_cartesian_total_on_finite_witness :
  exists xyz,
    convert_to_cartesian (libm := PyMath.poly_libm)
      (Some "5 30 0") (Some "-1 12 0") 1.5 = Ok xyz
    /\ forall r,
         convert_to_cartesian (libm := PyMath.poly_libm)
           (Some "5 30 0") (Some "-1 12 0") 1.5 = r -> r = Ok xyz.
Proof.
  exact (convert_to_cartesian_total_on_finite (libm := PyMath.poly_libm)
           "5 30 0" "-1 12 0" 5 30 0 (-1) 12 0 1.5
           eq_refl eq_refl eq_refl eq_refl).
Defined.

(** Three numeric tokens are not enough for the call to return: here the
    declination in degrees overflows to minus infinity and [math.cos]
    raises [ValueError], whatever the C library. *)
Lemma convert_to_cartesian_raises_on_overflow :
  read_angle "0 0 0" = Some (0, 0, 0)
  /\ read_angle "-1.79e308 1.79e308 0" = Some (-1.79e308, 1.79e308, 0)
  /\ -1 * (abs (-1.79e308) + 1.79e308 / 60 + 0 / 3600) = neg_infinity
  /\ forall libm : Libm,
       convert_to_cartesian (Some "0 0 0") (Some "-1.79e308 1.79e308 0") 1
       = Raise PyMath.domain_error.
Proof.
  do 3 (split; [reflexivity |]). intros libm.
  rewrite (convert_to_cartesian_spherical
             "0 0 0" "-1.79e308 1.79e308 0" 0 0 0 (-1.79e308) 1.79e308 0)
    by reflexivity.
  now apply spherical_infinite_dec.
Qed.

(** ** The directory scan *)

Lemma print_all_nil (w : world) : print_all [] w = w.
Proof. destruct w. unfold print_all. cbn. now rewrite app_nil_r. Qed.

Lemma print_all_app (l1 l2 : list string) (w : world) :
  print_all l2 (print_all l1 w) = print_all (l1 ++ l2) w.
Proof. unfold print_all. cbn. now rewrite app_assoc. Qed.

Lemma fold_print (lines : list string) (w : world) :
  fold_left (fun acc l => print l acc) lines w = print_all lines w.
Proof.
  revert w. induction lines as [| l lines IH]; intros w; cbn.
  - now rewrite print_all_nil.
  - rewrite IH. unfold print. apply (print_all_app [l] lines w).
Qed.

(** What [get_name_from_xml] returns is truthy exactly for a listed file. *)
Lemma get_name_from_xml_listed (fs : filesystem) (path : string) :
  listed_name fs path
  = match snd (get_name_from_xml fs path) with
    | Some n => if is_empty n then None else Some n
    | None => None
    end.
Proof.
  unfold listed_name, get_name_from_xml.
  destruct (fs_parse fs path) as [root | e]; [| reflexivity].
  destruct (Xml.find root "name") as [el |]; reflexivity.
Qed.

Lemma load_step_spec (fs : filesystem) (folder : string)
    (w : world) (cs : list descriptor) (xml_file : string) :
  load_step fs folder (w, cs) xml_file
  = (print_all (scan_log fs folder xml_file) w,
     cs ++ descriptors_of fs folder xml_file).
Proof.
  unfold load_step, scan_log, descriptors_of, listed_name, get_name_from_xml.
  destruct (endswith xml_file ".xml");
    [| now rewrite print_all_nil, app_nil_r].
  destruct (fs_parse fs (path_join folder xml_file)) as [root | e].
  - destruct (Xml.find root "name") as [el |]; cbn [fold_left].
    + rewrite print_all_nil. destruct (Xml.text el) as [n |].
      * destruct (is_empty n); [now rewrite app_nil_r | reflexivity].
      * now rewrite app_nil_r.
    + now rewrite app_nil_r.
  - cbn [fold_left]. now rewrite app_nil_r.
Qed.

Lemma load_loop_spec (fs : filesystem) (folder : string)
    (entries : list string) (w : world) (cs : list descriptor) :
  fold_left (load_step fs folder) entries (w, cs)
  = (print_all (flat_map (scan_log fs folder) entries) w,
     cs ++ flat_map (descriptors_of fs folder) entries).
Proof.
  revert w cs.
  induction entries as [| f entries IH]; intros w cs; cbn [fold_left flat_map].
  - now rewrite print_all_nil, app_nil_r.
  - rewrite load_step_spec, IH, print_all_app, <- app_assoc. reflexivity.
Qed.

(** C4, amended. [load_constellations] appends, in the order of the
    listing, exactly one descriptor [{name, path}] for every entry whose
    name ends in '.xml', whose file parses and whose first [<name>] child of
    the root has a non-empty text, and none for any other entry. It prints
    one line for every '.xml' file that fails to parse or has no [<name>]
    child, and nothing else; no entry stops the scan of the others. *)
Theorem load_constellations_descriptors
    (fs : filesystem) (w : world) (self : MainWindow) :
  load_constellations fs w self
  = (print_all (flat_map (scan_log fs (xml_folder self)) (fs_listdir fs)) w,
     {| xml_folder := xml_folder self;
        constelaciones :=
          constelaciones self
          ++ flat_map (descriptors_of fs (xml_folder self)) (fs_listdir fs);
        buttons := buttons self;
        button_layout := button_layout self |}).
Proof.
  unfold load_constellations. now rewrite load_loop_spec.
Qed.

(** Which descriptors the scan adds. *)
Lemma load_constellations_adds
    (fs : filesystem) (w : world) (self : MainWindow) (d : descriptor) :
  In d (constelaciones (snd (load_constellations fs w self)))
  <-> In d (constelaciones self)
      \/ exists f,
           In f (fs_listdir fs)
           /\ endswith f ".xml" = true
           /\ listed_name fs (path_join (xml_folder self) f) = Some (d_name d)
           /\ d_path d = path_join (xml_folder self) f.
Proof.
  unfold load_constellations. rewrite load_loop_spec. cbn [snd constelaciones].
  rewrite in_app_iff, in_flat_map. unfold descriptors_of.
  split; (intros [H | (f & Hf & H)]; [now left | right; exists f]).
  - destruct (endswith f ".xml"); [| contradiction].
    destruct (listed_name fs _) as [n |]; [| contradiction].
    destruct H as [<- | []]. cbn. now repeat split.
  - destruct H as (-> & -> & Hp). split; [exact Hf |].
    left. destruct d; cbn in *. now subst.
Qed.

(** A file whose [<name>] element is empty contains a [<name>] element,
    yet it gets no descriptor, and nothing is printed about it. *)
Lemma empty_name_not_listed :
  endswith "unnamed.xml" ".xml" = true
  /\ fs_parse Samples.only_unnamed (path_join "sys" "unnamed.xml")
     = Ok Samples.unnamed
  /\ Xml.find Samples.unnamed "name" = Some (Xml.Element "name" None [])
  /\ load_constellations Samples.only_unnamed empty_world (new_window "sys")
     = (empty_world, new_window "sys").
Proof. repeat split. Qed.

(** The scan of a folder with every kind of entry. *)
Example load_constellations_full :
  load_constellations Samples.full empty_world (new_window "sys")
  = ({| stdout :=
          ["No <name> tag found in sys/anonymous.xml";
           "Error reading the file sys/broken.xml: syntax error: line 1, column 0"];
        shown := [] |},
     {| xml_folder := "sys";
        constelaciones :=
          [{| d_name := "Orion"; d_path := "sys/orion.xml" |};
           {| d_name := "Lyra"; d_path := "sys/lyra.xml" |};
           {| d_name := "Castor"; d_path := "sys/twins.xml" |}];
        buttons := [];
        button_layout := [] |}).
Proof. reflexivity. Qed.

Lemma descriptors_of_not_truthy (fs : filesystem) (folder f : string) :
  (endswith f ".xml" = true ->
   truthy (snd (get_name_from_xml fs (path_join folder f))) = false) ->
  descriptors_of fs folder f = [].
Proof.
  intros H. unfold descriptors_of.
  destruct (endswith f ".xml"); [| reflexivity].
  rewrite get_name_from_xml_listed. specialize (H eq_refl).
  destruct (snd (get_name_from_xml fs (path_join folder f))) as [n |];
    [| reflexivity].
  cbn in H. apply negb_false_iff in H. now rewrite H.
Qed.

Lemma generate_buttons_count (self : MainWindow) :
  List.length (buttons (generate_buttons self))
  = (List.length (buttons self) + List.length (constelaciones self))%nat.
Proof.
  unfold generate_buttons.
  generalize (constelaciones self). intros cs. revert self.
  induction cs as [| c cs IH]; intros self; cbn [fold_left List.length].
  - lia.
  - rewrite IH. cbn [buttons]. rewrite length_app. cbn. lia.
Qed.

(** C7. When no entry of the folder is a '.xml' file that yields a name,
    [load_constellations] returns with [constelaciones] still empty, and
    [generate_buttons] then creates no button and no layout row. *)
Theorem no_valid_file_no_button
    (fs : filesystem) (w : world) (folder : string) :
  (forall f, In f (fs_listdir fs) -> endswith f ".xml" = true ->
     truthy (snd (get_name_from_xml fs (path_join folder f))) = false) ->
  let self := snd (load_constellations fs w (new_window folder)) in
  constelaciones self = []
  /\ buttons (generate_buttons self) = []
  /\ button_layout (generate_buttons self) = []
  /\ snd (setup_ui fs w (new_window folder)) = new_window folder.
Proof.
  intros H.
  assert (E : flat_map (descriptors_of fs folder) (fs_listdir fs) = []).
  { induction (fs_listdir fs) as [| f l IH]; [reflexivity |]. cbn.
    rewrite (descriptors_of_not_truthy fs folder f)
      by (apply H; now left).
    apply IH. intros g Hg. apply H. now right. }
  unfold setup_ui, load_constellations. rewrite load_loop_spec.
  cbn [snd new_window xml_folder constelaciones buttons button_layout app].
  rewrite E. repeat split.
Qed.

Lemma no_valid_file_no_button_witness :
  let self :=
    snd (load_constellations Samples.nothing_valid empty_world
           (new_window "sys")) in
  constelaciones self = []
  /\ buttons (generate_buttons self) = []
  /\ button_layout (generate_buttons self) = []
  /\ snd (setup_ui Samples.nothing_valid empty_world (new_window "sys"))
     = new_window "sys".
Proof.
  apply (no_valid_file_no_button Samples.nothing_valid empty_world "sys").
  intros f Hf _. cbn in Hf.
  repeat (destruct Hf as [<- | Hf]; [reflexivity |]). contradiction.
Defined.

(** ** Extraction and plotting *)

Lemma find_first_child (root : Xml.element) (t : string) (e : Xml.element) :
  Xml.find root t = Some e -> first_child root t e.
Proof.
  unfold Xml.find, first_child.
  induction (Xml.children root) as [| x l IH]; cbn; [discriminate |].
  destruct (String.eqb (Xml.tag x) t) eqn:Ex.
  - intros [= <-]. exists [], l. repeat split.
    + now apply String.eqb_eq.
    + intros y [].
  - intros H. destruct (IH H) as (pre & post & -> & Ht & Hpre).
    exists (x :: pre), post. repeat split; [exact Ht |].
    intros y [<- | Hy]; [now apply String.eqb_neq | now apply Hpre].
Qed.

Lemma first_child_unique (root : Xml.element) (t : string)
    (e1 e2 : Xml.element) :
  first_child root t e1 -> first_child root t e2 -> e1 = e2.
Proof.
  intros (pre1 & post1 & E1 & T1 & P1) (pre2 & post2 & E2 & T2 & P2).
  rewrite E1 in E2. clear E1.
  revert pre2 E2 P1 P2. induction pre1 as [| x pre1 IH]; intros pre2 E2 P1 P2.
  - destruct pre2 as [| y pre2]; cbn in E2; injection E2 as Hh Ht.
    + exact Hh.
    + exfalso. apply (P2 y); [now left | now rewrite <- Hh].
  - destruct pre2 as [| y pre2]; cbn in E2; injection E2 as Hh Ht.
    + exfalso. apply (P1 x); [now left | now rewrite Hh].
    + apply (IH pre2 Ht).
      * intros z Hz. apply P1. now right.
      * intros z Hz. apply P2. now right.
Qed.

(** The [try] block yields a list exactly for an extractable file. *)
Lemma extract_try_extractable (fs : filesystem) (path : string) :
  raises (extract_try fs path) = negb (extractable fs path).
Proof.
  unfold extract_try, extractable.
  destruct (fs_parse fs path) as [root | e]; cbn; [| reflexivity].
  destruct (Xml.find root "name"); cbn; [| reflexivity].
  destruct (Xml.find root "rightascension"); cbn; [| reflexivity].
  destruct (Xml.find root "declination"); cbn; [| reflexivity].
  destruct (Xml.find root "distance") as [x |]; cbn; [| reflexivity].
  destruct (PyFloat.of_text (Xml.text x)); reflexivity.
Qed.

(** A missing element makes the file not extractable, whichever of the
    four it is; so does a distance that is not a float literal. *)
Lemma missing_element_not_extractable
    (fs : filesystem) (path : string) (root : Xml.element) (t : string) :
  fs_parse fs path = Ok root ->
  In t ["name"; "rightascension"; "declination"; "distance"] ->
  Xml.find root t = None ->
  extractable fs path = false.
Proof.
  intros Hp Ht Hf. unfold extractable. rewrite Hp.
  cbn in Ht. destruct Ht as [<- | [<- | [<- | [<- | []]]]]; rewrite Hf.
  - reflexivity.
  - now destruct (Xml.find root "name").
  - now destruct (Xml.find root "name"), (Xml.find root "rightascension").
  - now destruct (Xml.find root "name"), (Xml.find root "rightascension"),
      (Xml.find root "declination").
Qed.

Lemma bad_distance_not_extractable
    (fs : filesystem) (path : string) (root x : Xml.element) :
  fs_parse fs path = Ok root ->
  Xml.find root "distance" = Some x ->
  raises (PyFloat.of_text (Xml.text x)) = true ->
  extractable fs path = false.
Proof.
  intros Hp Hx Hd. unfold extractable. rewrite Hp, Hx, Hd.
  now destruct (Xml.find root "name"), (Xml.find root "rightascension"),
    (Xml.find root "declination").
Qed.

Lemma unparsable_not_extractable
    (fs : filesystem) (path : string) (e : exc) :
  fs_parse fs path = Raise e -> extractable fs path = false.
Proof. intros Hp. unfold extractable. now rewrite Hp. Qed.

(** C5, amended. [extract_constellation_data] never raises. When the file
    does not parse, or one of [<name>], [<rightascension>],
    [<declination>], [<distance>] is missing from the root, or the text of
    [<distance>] is missing or not a float literal, it prints one line,
    "Error extracting data from" the path with the error, and returns
    [None]. In every other case it prints nothing and returns a one-star
    list whose name, right ascension and declination are the texts of the
    first such elements exactly as they are in the file, unread, and whose
    distance is the number read. *)
Theorem extract_constellation_data_reports
    (fs : filesystem) (w : world) (xml_path : string) :
  let reported (e : exc) :=
    extract_constellation_data fs w xml_path
    = (print ("Error extracting data from " ++ xml_path ++ ": " ++ exc_str e)
             w,
       None) in
  match fs_parse fs xml_path with
  | Raise e => reported e
  | Ok root =>
      match Xml.find root "name", Xml.find root "rightascension",
            Xml.find root "declination", Xml.find root "distance" with
      | Some n, Some r, Some d, Some x =>
          match PyFloat.of_text (Xml.text x) with
          | Ok distance =>
              extract_constellation_data fs w xml_path
              = (w, Some [ {| s_name := Xml.text n;
                              s_rightascension := Xml.text r;
                              s_declination := Xml.text d;
                              s_distance := distance |} ])
          | Raise e => reported e
          end
      | _, _, _, _ =>
          reported
            (Exc AttributeError "'NoneType' object has no attribute 'text'")
      end
  end
  /\ extractable fs xml_path
     = negb (raises (extract_try fs xml_path)).
Proof.
  split; [| now rewrite extract_try_extractable, negb_involutive].
  unfold extract_constellation_data, extract_try.
  destruct (fs_parse fs xml_path) as [root | e]; cbn [Py.bind];
    [| reflexivity].
  destruct (Xml.find root "name") as [n |]; cbn [Py.bind Xml.text_of];
    [| reflexivity].
  destruct (Xml.find root "rightascension") as [r |];
    cbn [Py.bind Xml.text_of]; [| reflexivity].
  destruct (Xml.find root "declination") as [d |];
    cbn [Py.bind Xml.text_of]; [| reflexivity].
  destruct (Xml.find root "distance") as [x |]; cbn [Py.bind Xml.text_of];
    [| reflexivity].
  destruct (PyFloat.of_text (Xml.text x)); reflexivity.
Qed.

(** A right ascension that is no number passes extraction: the file is
    extractable, a star comes back and nothing is printed. *)
Lemma non_numeric_angle_passes_extraction :
  read_angle "abc" = None
  /\ Xml.find Samples.bad_ra "rightascension"
     = Some (Samples.leaf "rightascension" "abc")
  /\ extract_constellation_data Samples.full empty_world "sys/lyra.xml"
     = (empty_world,
        Some [ {| s_name := Some "Lyra";
                  s_rightascension := Some "abc";
                  s_declination := Some "38 47 0";
                  s_distance := 7.7 |} ]).
Proof. repeat split. Qed.

(** C10. Whenever [extract_constellation_data] returns a list, the list
    holds exactly one star, built from the first [<name>],
    [<rightascension>], [<declination>] and [<distance>] children of the
    root, however many there are. *)
Theorem extract_constellation_data_first_star
    (fs : filesystem) (w : world) (xml_path : string) (l : list star) :
  snd (extract_constellation_data fs w xml_path) = Some l ->
  exists root n r d x dist,
    fs_parse fs xml_path = Ok root
    /\ first_child root "name" n
    /\ first_child root "rightascension" r
    /\ first_child root "declination" d
    /\ first_child root "distance" x
    /\ PyFloat.of_text (Xml.text x) = Ok dist
    /\ l = [ {| s_name := Xml.text n;
                s_rightascension := Xml.text r;
                s_declination := Xml.text d;
                s_distance := dist |} ].
Proof.
  unfold extract_constellation_data.
  destruct (extract_try fs xml_path) as [c | e] eqn:E; cbn; [| discriminate].
  intros [= <-]. unfold extract_try in E.
  destruct (fs_parse fs xml_path) as [root |]; cbn in E; [| discriminate].
  destruct (Xml.find root "name") as [n |] eqn:En; cbn in E; [| discriminate].
  destruct (Xml.find root "rightascension") as [r |] eqn:Er; cbn in E;
    [| discriminate].
  destruct (Xml.find root "declination") as [d |] eqn:Ed; cbn in E;
    [| discriminate].
  destruct (Xml.find root "distance") as [x |] eqn:Ex; cbn in E;
    [| discriminate].
  destruct (PyFloat.of_text (Xml.text x)) as [dist |] eqn:Edist; cbn in E;
    [| discriminate].
  injection E as <-.
  exists root, n, r, d, x, dist.
  repeat split; try (now apply find_first_child); assumption.
Qed.

Lemma extract_constellation_data_first_star_witness :
  exists root n r d x dist,
    fs_parse Samples.full "sys/twins.xml" = Ok root
    /\ first_child root "name" n
    /\ first_child root "rightascension" r
    /\ first_child root "declination" d
    /\ first_child root "distance" x
    /\ PyFloat.of_text (Xml.text x) = Ok dist
    /\ [ {| s_name := Some "Castor";
            s_rightascension := Some "7 34 36";
            s_declination := Some "31 53 18";
            s_distance := 15.6 |} ]
       = [ {| s_name := Xml.text n;
              s_rightascension := Xml.text r;
              s_declination := Xml.text d;
              s_distance := dist |} ].
Proof.
  exact (extract_constellation_data_first_star Samples.full empty_world
           "sys/twins.xml" _ eq_refl).
Defined.

Section Plotting.

Context {libm : Libm}.

(** Nothing stands between the conversion and the caller of
    [show_details_window]: what [convert_to_cartesian] raises on the
    extracted star comes out of the slot, with nothing printed. *)
Lemma show_details_window_propagates
    (fs : filesystem) (w : world) (xml_path : string) (st : star) (e : exc) :
  extract_try fs xml_path = Ok [st] ->
  convert_to_cartesian (s_rightascension st) (s_declination st)
                       (s_distance st) = Raise e ->
  show_details_window fs w xml_path = (w, Raise e).
Proof.
  intros Hx Hc. unfold show_details_window, extract_constellation_data.
  rewrite Hx. unfold draw_constellation. cbn [convert_all].
  rewrite Hc. reflexivity.
Qed.

(** C2, at the failing input. The file "sys/lyra.xml" has "abc" for a
    right ascension. Extraction accepts it, the conversion raises
    [ValueError], and the exception leaves [show_details_window]: nothing is
    printed, nothing is shown. *)
Theorem show_details_window_raises :
  show_details_window Samples.full empty_world "sys/lyra.xml"
  = (empty_world,
     Raise (Exc ValueError "could not convert string to float: 'abc'")).
Proof.
  apply (show_details_window_propagates _ _ _
           {| s_name := Some "Lyra"; s_rightascension := Some "abc";
              s_declination := Some "38 47 0"; s_distance := 7.7 |});
    reflexivity.
Qed.

End Plotting.

(** A well-formed file is plotted: one star and the Earth. *)
Example show_details_window_orion :
  exists x y z,
    show_details_window (libm := PyMath.poly_libm) Samples.full empty_world
      "sys/orion.xml"
    = ({| stdout := [];
          shown :=
            [ {| fig_traces :=
                   [ {| tr_name := "Stars"; tr_x := [x]; tr_y := [y];
                        tr_z := [z]; tr_text := [Some "Orion"];
                        tr_size := 5%Z;
                        tr_color := ColorScale [z] "Viridis" |};
                     earth ];
                 fig_title := "3D Map of the Constellation and Earth" |} ] |},
       Ok tt).
Proof. do 3 eexists. vm_compute. reflexivity. Qed.

(** ** Further properties of the scan and of the buttons *)

Lemma generate_buttons_loop (cs : list descriptor) (self : MainWindow) :
  fold_left
    (fun (acc : MainWindow) (constelacion : descriptor) =>
       let b := make_button constelacion in
       {| xml_folder := xml_folder acc;
          constelaciones := constelaciones acc;
          buttons := buttons acc ++ [b];
          button_layout :=
            button_layout acc ++ [[Stretch 1; Widget b; Stretch 1]] |})
    cs self
  = {| xml_folder := xml_folder self;
       constelaciones := constelaciones self;
       buttons := buttons self ++ map make_button cs;
       button_layout :=
         button_layout self ++ map button_row (map make_button cs) |}.
Proof.
  revert self. induction cs as [| c cs IH]; intros self; cbn [fold_left map].
  - rewrite !app_nil_r. now destruct self.
  - rewrite IH. cbn [xml_folder constelaciones buttons button_layout].
    rewrite <- !app_assoc. reflexivity.
Qed.

(** X1. [generate_buttons] appends one button per loaded constellation, in
    order, labelled with its name and bound to its path, and one centred
    row per button; the folder and the constellations are left as they
    were. Buttons already there stay: a second call adds every button
    again. *)
Theorem generate_buttons_appends (self : MainWindow) :
  generate_buttons self
  = {| xml_folder := xml_folder self;
       constelaciones := constelaciones self;
       buttons := buttons self ++ map make_button (constelaciones self);
       button_layout :=
         button_layout self
         ++ map button_row (map make_button (constelaciones self)) |}
  /\ buttons (generate_buttons (generate_buttons self))
     = buttons self ++ map make_button (constelaciones self)
                    ++ map make_button (constelaciones self).
Proof.
  unfold generate_buttons. rewrite !generate_buttons_loop.
  cbn [xml_folder constelaciones buttons button_layout].
  split; [reflexivity | now rewrite <- app_assoc].
Qed.

Lemma descriptors_of_named (fs : filesystem) (folder f : string) :
  Forall (fun d => is_empty (d_name d) = false
                   /\ d_path d = path_join folder f
                   /\ endswith f ".xml" = true)
         (descriptors_of fs folder f).
Proof.
  unfold descriptors_of, listed_name.
  destruct (endswith f ".xml"); [| constructor].
  destruct (fs_parse fs _) as [root |]; [| constructor].
  destruct (Xml.find root "name") as [e |]; [| constructor].
  destruct (Xml.text e) as [n |]; [| constructor].
  destruct (is_empty n) eqn:En; constructor; [| constructor].
  now repeat split.
Qed.

(** X2. After [setup_ui] on a fresh window there is exactly one button per
    listed constellation, in the same order, carrying its name and path,
    one layout row per button, and no button has an empty label. *)
Theorem setup_ui_buttons (fs : filesystem) (w : world) (folder : string) :
  let self := snd (setup_ui fs w (new_window folder)) in
  constelaciones self = flat_map (descriptors_of fs folder) (fs_listdir fs)
  /\ buttons self = map make_button (constelaciones self)
  /\ button_layout self = map button_row (buttons self)
  /\ Forall (fun b => is_empty (b_text b) = false /\ b_size b = (250, 50)%Z)
            (buttons self).
Proof.
  unfold setup_ui, load_constellations. rewrite load_loop_spec.
  unfold generate_buttons. rewrite generate_buttons_loop.
  cbn [snd new_window xml_folder constelaciones buttons button_layout app].
  repeat split.
  apply Forall_map, Forall_flat_map, Forall_forall. intros f _.
  eapply Forall_impl; [| apply descriptors_of_named].
  intros d (Hn & _). cbn. now split.
Qed.

(** X3. The scan accumulates: [load_constellations] run again on its own
    result lists every constellation a second time and prints every line a
    second time. *)
Theorem load_constellations_twice
    (fs : filesystem) (w : world) (self : MainWindow) :
  let found := flat_map (descriptors_of fs (xml_folder self)) (fs_listdir fs) in
  let lines := flat_map (scan_log fs (xml_folder self)) (fs_listdir fs) in
  let '(w1, self1) := load_constellations fs w self in
  let '(w2, self2) := load_constellations fs w1 self1 in
  constelaciones self2 = constelaciones self ++ found ++ found
  /\ stdout w2 = stdout w ++ lines ++ lines.
Proof.
  unfold load_constellations. rewrite load_loop_spec.
  cbn [xml_folder constelaciones]. rewrite load_loop_spec.
  cbn [constelaciones print_all stdout].
  now rewrite <- !app_assoc.
Qed.

Lemma scan_agree (fs1 fs2 : filesystem) (folder f : string) :
  (endswith f ".xml" = true ->
   fs_parse fs1 (path_join folder f) = fs_parse fs2 (path_join folder f)) ->
  descriptors_of fs1 folder f = descriptors_of fs2 folder f
  /\ scan_log fs1 folder f = scan_log fs2 folder f.
Proof.
  intros H. unfold descriptors_of, scan_log, listed_name.
  destruct (endswith f ".xml"); [| now split].
  now rewrite (H eq_refl).
Qed.

Lemma scan_agree_all (fs1 fs2 : filesystem) (folder : string)
    (entries : list string) :
  (forall f, In f entries -> endswith f ".xml" = true ->
     fs_parse fs1 (path_join folder f) = fs_parse fs2 (path_join folder f)) ->
  flat_map (descriptors_of fs1 folder) entries
  = flat_map (descriptors_of fs2 folder) entries
  /\ flat_map (scan_log fs1 folder) entries
     = flat_map (scan_log fs2 folder) entries.
Proof.
  induction entries as [| f l IH]; intros Hp; [now split |]. cbn.
  assert (Hf : endswith f ".xml" = true ->
               fs_parse fs1 (path_join folder f)
               = fs_parse fs2 (path_join folder f))
    by (intros Hx; apply Hp; [now left | exact Hx]).
  destruct (scan_agree fs1 fs2 folder f Hf) as [-> ->].
  destruct IH as [-> ->]; [| now split].
  intros g Hg. apply Hp. now right.
Qed.

(** X4. The scan reads only the entries whose name ends in '.xml': two
    disks with the same listing that agree on those files give the same
    constellations and the same output, whatever else they hold. *)
Theorem load_constellations_reads_xml_only
    (fs1 fs2 : filesystem) (w : world) (self : MainWindow) :
  fs_listdir fs1 = fs_listdir fs2 ->
  (forall f, In f (fs_listdir fs1) -> endswith f ".xml" = true ->
     fs_parse fs1 (path_join (xml_folder self) f)
     = fs_parse fs2 (path_join (xml_folder self) f)) ->
  load_constellations fs1 w self = load_constellations fs2 w self.
Proof.
  intros Hl Hp. unfold load_constellations. rewrite !load_loop_spec, <- Hl.
  destruct (scan_agree_all fs1 fs2 (xml_folder self) (fs_listdir fs1) Hp)
    as [-> ->].
  reflexivity.
Qed.

Lemma load_constellations_reads_xml_only_witness :
  load_constellations Samples.full empty_world (new_window "sys")
  = load_constellations MoreSamples.full_with_notes empty_world
      (new_window "sys").
Proof.
  apply (load_constellations_reads_xml_only Samples.full
           MoreSamples.full_with_notes empty_world (new_window "sys")
           eq_refl).
  intros f Hf Hx. cbn in Hf.
  repeat (destruct Hf as [<- | Hf]; [reflexivity || discriminate Hx |]).
  contradiction.
Defined.

Lemma scan_one_outcome (fs : filesystem) (folder f : string) :
  (List.length (descriptors_of fs folder f)
   + List.length (scan_log fs folder f)
   <= if endswith f ".xml" then 1 else 0)%nat.
Proof.
  unfold descriptors_of, scan_log, listed_name.
  destruct (endswith f ".xml"); [| cbn; lia].
  destruct (fs_parse fs _) as [root |]; [| cbn; lia].
  destruct (Xml.find root "name") as [e |]; [| cbn; lia].
  destruct (Xml.text e) as [n |]; [| cbn; lia].
  destruct (is_empty n); cbn; lia.
Qed.

(** X5. Every '.xml' entry ends in at most one of two ways, a new
    constellation or a printed line: together the scan adds no more
    constellations and lines than the folder has '.xml' entries. *)
Theorem load_constellations_bounded
    (fs : filesystem) (w : world) (self : MainWindow) :
  let '(w', self') := load_constellations fs w self in
  (List.length (constelaciones self') + List.length (stdout w')
   <= List.length (constelaciones self) + List.length (stdout w)
      + List.length (filter (fun f => endswith f ".xml") (fs_listdir fs)))%nat.
Proof.
  unfold load_constellations. rewrite load_loop_spec.
  cbn [constelaciones print_all stdout]. rewrite !length_app.
  enough (List.length (flat_map (descriptors_of fs (xml_folder self))
                                (fs_listdir fs))
          + List.length (flat_map (scan_log fs (xml_folder self))
                                  (fs_listdir fs))
          <= List.length (filter (fun f => endswith f ".xml") (fs_listdir fs)))%nat
    by lia.
  induction (fs_listdir fs) as [| f l IH]; cbn [flat_map filter]; [cbn; lia |].
  rewrite !length_app.
  pose proof (scan_one_outcome fs (xml_folder self) f) as H.
  destruct (endswith f ".xml"); cbn [List.length]; lia.
Qed.

(** ** Further properties of the transform *)

Lemma of_str_raises_value_error (s : string) (e : exc) :
  PyFloat.of_str s = Raise e -> exc_cls e = ValueError.
Proof.
  unfold PyFloat.of_str. destruct (PyFloat.read_float _); [discriminate |].
  now intros [= <-].
Qed.

Lemma unpack3_floats_raises_value_error (tokens : list string) (e : exc) :
  unpack3_floats tokens = Raise e -> exc_cls e = ValueError.
Proof.
  unfold unpack3_floats.
  destruct tokens as [| t1 [| t2 [| t3 [| t4 rest]]]]; cbn.
  - now intros [= <-].
  - destruct (PyFloat.of_str t1) eqn:E1; cbn; intros [= <-];
      [reflexivity | now apply (of_str_raises_value_error t1)].
  - destruct (PyFloat.of_str t1) eqn:E1; cbn;
      [| intros [= <-]; now apply (of_str_raises_value_error t1)].
    destruct (PyFloat.of_str t2) eqn:E2; cbn; intros [= <-];
      [reflexivity | now apply (of_str_raises_value_error t2)].
  - destruct (PyFloat.of_str t1) eqn:E1; cbn;
      [| intros [= <-]; now apply (of_str_raises_value_error t1)].
    destruct (PyFloat.of_str t2) eqn:E2; cbn;
      [| intros [= <-]; now apply (of_str_raises_value_error t2)].
    destruct (PyFloat.of_str t3) eqn:E3; cbn;
      [discriminate | intros [= <-]; now apply (of_str_raises_value_error t3)].
  - destruct (PyFloat.of_str t1) eqn:E1; cbn;
      [| intros [= <-]; now apply (of_str_raises_value_error t1)].
    destruct (PyFloat.of_str t2) eqn:E2; cbn;
      [| intros [= <-]; now apply (of_str_raises_value_error t2)].
    destruct (PyFloat.of_str t3) eqn:E3; cbn;
      [| intros [= <-]; now apply (of_str_raises_value_error t3)].
    destruct (PyFloat.of_str t4) eqn:E4; cbn; intros [= <-];
      [reflexivity | now apply (of_str_raises_value_error t4)].
Qed.

Lemma unpack3_floats_not_angle (s : string) :
  read_angle s = None -> exists e, unpack3_floats (split s) = Raise e.
Proof.
  intros H. destruct (unpack3_floats (split s)) as [t | e] eqn:E.
  - apply unpack3_floats_read_angle in E. congruence.
  - now exists e.
Qed.

Section TransformEdges.

Context {libm : Libm}.

Local Open Scope float_scope.

Lemma spherical_raises_value_error
    (ra_deg dec_deg distance : float) (e : exc) :
  spherical ra_deg dec_deg distance = Raise e -> exc_cls e = ValueError.
Proof.
  unfold spherical, PyMath.cos, PyMath.sin.
  destruct (is_infinity (PyMath.radians dec_deg)); cbn [Py.bind];
    [now intros [= <-] |].
  destruct (is_infinity (PyMath.radians ra_deg)); cbn [Py.bind];
    [now intros [= <-] | discriminate].
Qed.

Lemma spherical_returns (ra_deg dec_deg distance : float) :
  raises (spherical ra_deg dec_deg distance)
  = is_infinity (PyMath.radians ra_deg)
    || is_infinity (PyMath.radians dec_deg).
Proof.
  unfold spherical, PyMath.cos, PyMath.sin.
  destruct (is_infinity (PyMath.radians dec_deg)); cbn [Py.bind raises];
    [now rewrite orb_true_r |].
  now destruct (is_infinity (PyMath.radians ra_deg)).
Qed.

(** X6. On two strings [convert_to_cartesian] returns a triple exactly
    when both have three numeric tokens and neither angle in radians is
    infinite; in every other case it raises. *)
Theorem convert_to_cartesian_returns_iff
    (right_ascension declination : string) (distance : float) :
  raises (convert_to_cartesian (Some right_ascension) (Some declination)
                               distance) = false
  <-> exists h m s d dm ds,
        read_angle right_ascension = Some (h, m, s)
        /\ read_angle declination = Some (d, dm, ds)
        /\ is_infinity (PyMath.radians (15 * (h + m / 60 + s / 3600))) = false
        /\ is_infinity
             (PyMath.radians ((if d <? 0 then -1 else 1)
                              * (abs d + dm / 60 + ds / 3600))) = false.
Proof.
  split.
  - destruct (read_angle right_ascension) as [[[h m] s] |] eqn:Hra.
    + destruct (read_angle declination) as [[[d dm] ds] |] eqn:Hdec.
      * rewrite (convert_to_cartesian_spherical _ _ _ _ _ _ _ _ _ Hra Hdec).
        rewrite spherical_returns. intros H. apply orb_false_iff in H.
        exists h, m, s, d, dm, ds. now repeat split.
      * apply unpack3_floats_read_angle in Hra.
        destruct (unpack3_floats_not_angle _ Hdec) as [e He].
        unfold convert_to_cartesian. cbn [text_split Py.bind].
        rewrite Hra. cbn [Py.bind]. rewrite He. discriminate.
    + destruct (unpack3_floats_not_angle _ Hra) as [e He].
      unfold convert_to_cartesian. cbn [text_split Py.bind].
      rewrite He. discriminate.
  - intros (h & m & s & d & dm & ds & Hra & Hdec & Fra & Fdec).
    rewrite (convert_to_cartesian_spherical _ _ _ _ _ _ _ _ _ Hra Hdec).
    now rewrite spherical_returns, Fra, Fdec.
Qed.

(** X7. Whatever two strings it is given, the only exception
    [convert_to_cartesian] raises is a [ValueError]: for a token that is no
    number, for a wrong number of tokens, and for an infinite angle. *)
Theorem convert_to_cartesian_raises_value_error
    (right_ascension declination : string) (distance : float) (e : exc) :
  convert_to_cartesian (Some right_ascension) (Some declination) distance
  = Raise e ->
  exc_cls e = ValueError.
Proof.
  destruct (read_angle right_ascension) as [[[h m] s] |] eqn:Hra.
  - destruct (read_angle declination) as [[[d dm] ds] |] eqn:Hdec.
    + rewrite (convert_to_cartesian_spherical _ _ _ _ _ _ _ _ _ Hra Hdec).
      apply spherical_raises_value_error.
    + apply unpack3_floats_read_angle in Hra.
      destruct (unpack3_floats_not_angle _ Hdec) as [e' He].
      unfold convert_to_cartesian. cbn [text_split Py.bind].
      rewrite Hra. cbn [Py.bind]. rewrite He. cbn [Py.bind].
      intros [= <-]. now apply (unpack3_floats_raises_value_error _ _ He).
  - destruct (unpack3_floats_not_angle _ Hra) as [e' He].
    unfold convert_to_cartesian. cbn [text_split Py.bind].
    rewrite He. cbn [Py.bind].
    intros [= <-]. now apply (unpack3_floats_raises_value_error _ _ He).
Qed.

(** X8. A text that is missing ([None], as an empty element gives) makes
    [convert_to_cartesian] raise [AttributeError]: at once for the right
    ascension, and for the declination once the right ascension has been
    read. *)
Theorem convert_to_cartesian_missing_text
    (right_ascension : string) (declination : option string)
    (h m s distance : float) :
  read_angle right_ascension = Some (h, m, s) ->
  convert_to_cartesian None declination distance
  = Raise (Exc AttributeError "'NoneType' object has no attribute 'split'")
  /\ convert_to_cartesian (Some right_ascension) None distance
     = Raise (Exc AttributeError "'NoneType' object has no attribute 'split'").
Proof.
  intros Hra. split; [reflexivity |].
  apply unpack3_floats_read_angle in Hra.
  unfold convert_to_cartesian. cbn [text_split Py.bind].
  now rewrite Hra.
Qed.

(** X9. The right ascension is read first: when it is not three numeric
    tokens, its error is what the call raises, whatever the declination
    and the distance are. *)
Theorem convert_to_cartesian_right_ascension_first
    (right_ascension : string) :
  read_angle right_ascension = None ->
  exists e,
    unpack3_floats (split right_ascension) = Raise e
    /\ forall declination' distance',
         convert_to_cartesian (Some right_ascension) declination' distance'
         = Raise e.
Proof.
  intros Hra. destruct (unpack3_floats_not_angle _ Hra) as [e He].
  exists e. split; [exact He |]. intros dec' dist'.
  unfold convert_to_cartesian. cbn [text_split Py.bind]. now rewrite He.
Qed.

End TransformEdges.

Lemma split_from_spaces (ws rest : string) :
  all_space ws = true -> split_from "" (ws ++ rest) = split_from "" rest.
Proof.
  induction ws as [| c ws IH]; cbn; [reflexivity |].
  intros H. apply andb_true_iff in H. destruct H as [Hc Hw].
  rewrite Hc. now apply IH.
Qed.

Lemma split_token_then_spaces (t ws rest : string) :
  is_token t = true -> all_space ws = true -> is_empty ws = false ->
  split_from "" (t ++ ws ++ rest) = t :: split_from "" rest.
Proof.
  intros Ht Hw Hne. destruct ws as [| c ws]; [discriminate |].
  cbn in Hw. apply andb_true_iff in Hw. destruct Hw as [Hc Hw].
  cbn [append]. rewrite split_token_then_space by assumption.
  now rewrite split_from_spaces.
Qed.

Lemma split_token_at_end (t ws : string) :
  is_token t = true -> all_space ws = true ->
  split_from "" (t ++ ws) = [t].
Proof.
  intros Ht Hw. destruct ws as [| c ws].
  - rewrite append_empty_r. now apply split_last_token.
  - cbn in Hw. apply andb_true_iff in Hw. destruct Hw as [Hc Hw].
    rewrite split_token_then_space by assumption.
    rewrite <- (append_empty_r ws), split_from_spaces by exact Hw.
    reflexivity.
Qed.

(** Three tokens split the same however they are spaced. *)
Lemma split_spaced (w0 t1 w1 t2 w2 t3 w3 : string) :
  is_token t1 = true -> is_token t2 = true -> is_token t3 = true ->
  all_space w0 = true -> all_space w1 = true -> all_space w2 = true ->
  all_space w3 = true -> is_empty w1 = false -> is_empty w2 = false ->
  split (w0 ++ t1 ++ w1 ++ t2 ++ w2 ++ t3 ++ w3) = [t1; t2; t3].
Proof.
  intros T1 T2 T3 W0 W1 W2 W3 N1 N2. unfold split.
  rewrite split_from_spaces by exact W0.
  rewrite split_token_then_spaces by assumption.
  rewrite split_token_then_spaces by assumption.
  now rewrite split_token_at_end.
Qed.

(** X10. Only the tokens of an angle string matter: with any whitespace
    before, between and after its three tokens, tabs and line breaks
    included, [convert_to_cartesian] does what it does on the tokens joined
    by single spaces, in either argument. *)
Theorem convert_to_cartesian_spacing {libm : Libm}
    (w0 t1 w1 t2 w2 t3 w3 : string) (other : option string)
    (distance : float) :
  is_token t1 = true -> is_token t2 = true -> is_token t3 = true ->
  all_space w0 = true -> all_space w1 = true -> all_space w2 = true ->
  all_space w3 = true -> is_empty w1 = false -> is_empty w2 = false ->
  let spaced := (w0 ++ t1 ++ w1 ++ t2 ++ w2 ++ t3 ++ w3)%string in
  let plain := (t1 ++ " " ++ t2 ++ " " ++ t3)%string in
  convert_to_cartesian (Some spaced) other distance
  = convert_to_cartesian (Some plain) other distance
  /\ convert_to_cartesian other (Some spaced) distance
     = convert_to_cartesian other (Some plain) distance.
Proof.
  intros T1 T2 T3 W0 W1 W2 W3 N1 N2 spaced plain.
  assert (E : split spaced = split plain).
  { unfold spaced, plain. rewrite split_spaced, split_three by assumption.
    reflexivity. }
  unfold convert_to_cartesian. cbn [text_split Py.bind].
  rewrite E. split; reflexivity.
Qed.

Lemma convert_to_cartesian_raises_value_error_witness :
  exc_cls (Exc ValueError "could not convert string to float: '12h'")
  = ValueError.
Proof.
  exact (convert_to_cartesian_raises_value_error (libm := PyMath.poly_libm)
           "12h 30m 0s" "0 0 0" 1 _ eq_refl).
Defined.

Lemma convert_to_cartesian_missing_text_witness :
  convert_to_cartesian (libm := PyMath.poly_libm) None (Some "0 0 0") 1
  = Raise (Exc AttributeError "'NoneType' object has no attribute 'split'")
  /\ convert_to_cartesian (libm := PyMath.poly_libm) (Some "5 30 0") None 1
     = Raise (Exc AttributeError "'NoneType' object has no attribute 'split'").
Proof.
  exact (convert_to_cartesian_missing_text (libm := PyMath.poly_libm)
           "5 30 0" (Some "0 0 0") 5 30 0 1 eq_refl).
Defined.

Lemma convert_to_cartesian_right_ascension_first_witness :
  exists e,
    unpack3_floats (split "5 30") = Raise e
    /\ forall declination' distance',
         convert_to_cartesian (libm := PyMath.poly_libm)
           (Some "5 30") declination' distance' = Raise e.
Proof.
  exact (convert_to_cartesian_right_ascension_first
           (libm := PyMath.poly_libm) "5 30" eq_refl).
Defined.

Lemma convert_to_cartesian_spacing_witness :
  convert_to_cartesian (libm := PyMath.poly_libm)
    (Some ("  " ++ "5" ++ String "009" " " ++ "30" ++ "  " ++ "0" ++ " ")%string)
    (Some "-1 12 0") 1.5
  = convert_to_cartesian (libm := PyMath.poly_libm)
      (Some "5 30 0") (Some "-1 12 0") 1.5
  /\ convert_to_cartesian (libm := PyMath.poly_libm)
       (Some "-1 12 0")
       (Some ("  " ++ "5" ++ String "009" " " ++ "30" ++ "  " ++ "0" ++ " ")%string)
       1.5
     = convert_to_cartesian (libm := PyMath.poly_libm)
         (Some "-1 12 0") (Some "5 30 0") 1.5.
Proof.
  exact (convert_to_cartesian_spacing (libm := PyMath.poly_libm)
           "  " "5" (String "009" " ") "30" "  " "0" " " (Some "-1 12 0") 1.5
           eq_refl eq_refl eq_refl eq_refl eq_refl eq_refl eq_refl
           eq_refl eq_refl).
Defined.

(** ** Further properties of extraction and plotting *)

Section PlottingFacts.

Context {libm : Libm}.

Local Open Scope float_scope.

Lemma convert_all_inv (c : list star)
    (xs ys zs : list float) (ns : list (option string))
    (r : list float * list float * list float * list (option string)) :
  convert_all c (xs, ys, zs, ns) = Ok r ->
  exists points,
    Forall2 (fun st p => convert_star st = Ok p) c points
    /\ r = (xs ++ map x_of points, ys ++ map y_of points,
            zs ++ map z_of points, ns ++ map s_name c).
Proof.
  revert xs ys zs ns. induction c as [| st c IH]; intros xs ys zs ns; cbn.
  - intros [= <-]. exists []. split; [constructor |].
    cbn. now rewrite !app_nil_r.
  - fold (convert_star st).
    destruct (convert_star st) as [[[x y] z] |] eqn:E; cbn; [| discriminate].
    intros H. destruct (IH _ _ _ _ H) as (points & HF & ->).
    exists ((x, y, z) :: points). split; [now constructor |].
    cbn. now rewrite <- !app_assoc.
Qed.

Lemma convert_all_points (c : list star) (points : list (float * float * float))
    (xs ys zs : list float) (ns : list (option string)) :
  Forall2 (fun st p => convert_star st = Ok p) c points ->
  convert_all c (xs, ys, zs, ns)
  = Ok (xs ++ map x_of points, ys ++ map y_of points,
        zs ++ map z_of points, ns ++ map s_name c).
Proof.
  intros HF. revert xs ys zs ns.
  induction HF as [| st [[x y] z] c points E HF IH]; intros xs ys zs ns; cbn.
  - now rewrite !app_nil_r.
  - fold (convert_star st). rewrite E. cbn. rewrite IH.
    now rewrite <- !app_assoc.
Qed.

Lemma convert_all_raises (c : list star)
    (acc : list float * list float * list float * list (option string))
    (e : exc) :
  convert_all c acc = Raise e ->
  exists before st after,
    c = before ++ st :: after
    /\ Forall (fun s => raises (convert_star s) = false) before
    /\ convert_star st = Raise e.
Proof.
  revert acc. induction c as [| st c IH]; intros [[[xs ys] zs] ns]; cbn.
  - discriminate.
  - fold (convert_star st).
    destruct (convert_star st) as [[[x y] z] |] eqn:E; cbn.
    + intros H. destruct (IH _ H) as (before & st' & after & -> & HF & He).
      exists (st :: before), st', after. repeat split; [| exact He].
      constructor; [now rewrite E | exact HF].
    + intros [= <-]. exists [], st, c. repeat split; [constructor | exact E].
Qed.

(** X11. [draw_constellation] returns normally exactly when every star
    converts, and then it shows one figure and prints nothing: the star
    trace holds the converted coordinates and the names in the order of
    the stars, one entry per star, coloured by [z], and the second trace is
    the Earth at the origin. *)
Theorem draw_constellation_shows
    (w w' : world) (constellation : list star) :
  draw_constellation w constellation = (w', Ok tt)
  <-> exists points,
        Forall2 (fun st p => convert_star st = Ok p) constellation points
        /\ w' = show (constellation_figure points (map s_name constellation)) w.
Proof.
  unfold draw_constellation. split.
  - destruct (convert_all constellation ([], [], [], []))
      as [[[[xs ys] zs] ns] |] eqn:E; [| discriminate].
    intros [= <-]. apply convert_all_inv in E.
    destruct E as (points & HF & [= -> -> -> ->]).
    exists points. split; [exact HF | reflexivity].
  - intros (points & HF & ->).
    now rewrite (convert_all_points _ _ [] [] [] [] HF).
Qed.

(** X12. [draw_constellation] is all or nothing: when it raises, nothing
    has been shown or printed, and the exception is that of the first star
    whose conversion fails, the stars before it having converted. *)
Theorem draw_constellation_raises
    (w w' : world) (constellation : list star) (e : exc) :
  draw_constellation w constellation = (w', Raise e) ->
  w' = w
  /\ exists before st after,
       constellation = before ++ st :: after
       /\ Forall (fun s => raises (convert_star s) = false) before
       /\ convert_star st = Raise e.
Proof.
  unfold draw_constellation.
  destruct (convert_all constellation ([], [], [], []))
    as [[[[xs ys] zs] ns] | e'] eqn:E; [discriminate |].
  intros [= <- <-]. split; [reflexivity |].
  now apply (convert_all_raises _ _ _ E).
Qed.

Lemma extract_try_one_star (fs : filesystem) (xml_path : string)
    (c : list star) :
  extract_try fs xml_path = Ok c -> exists st, c = [st].
Proof.
  unfold extract_try.
  destruct (fs_parse fs xml_path); cbn; [| discriminate].
  destruct (Xml.text_of (Xml.find _ "name")); cbn; [| discriminate].
  destruct (Xml.text_of (Xml.find _ "rightascension")); cbn; [| discriminate].
  destruct (Xml.text_of (Xml.find _ "declination")); cbn; [| discriminate].
  destruct (Xml.text_of (Xml.find _ "distance")); cbn; [| discriminate].
  destruct (PyFloat.of_text _); cbn; [| discriminate].
  intros [= <-]. eexists. reflexivity.
Qed.

(** X13. [show_details_window] raises exactly when the file passes
    extraction and the conversion of its star raises; the exception is the
    conversion's, and nothing is printed or shown on the way. *)
Theorem show_details_window_raises_iff
    (fs : filesystem) (w w' : world) (xml_path : string) (e : exc) :
  show_details_window fs w xml_path = (w', Raise e)
  <-> w' = w
      /\ exists st,
           extract_try fs xml_path = Ok [st] /\ convert_star st = Raise e.
Proof.
  split.
  - unfold show_details_window, extract_constellation_data.
    destruct (extract_try fs xml_path) as [c | e'] eqn:E; [| discriminate].
    destruct (extract_try_one_star _ _ _ E) as [st ->].
    unfold draw_constellation. cbn [convert_all]. fold (convert_star st).
    destruct (convert_star st) as [[[x y] z] | e'] eqn:Ec; cbn;
      [discriminate |].
    intros [= <- <-]. split; [reflexivity |]. now exists st.
  - intros (-> & st & Hx & Hc).
    now apply (show_details_window_propagates fs w xml_path st e).
Qed.

(** X14. On a file that is not extractable [show_details_window] returns
    normally: it prints the one line of [extract_constellation_data] and
    shows nothing. *)
Theorem show_details_window_skips
    (fs : filesystem) (w : world) (xml_path : string) :
  extractable fs xml_path = false ->
  exists e,
    extract_try fs xml_path = Raise e
    /\ show_details_window fs w xml_path
       = (print ("Error extracting data from " ++ xml_path ++ ": "
                   ++ exc_str e) w,
          Ok tt).
Proof.
  intros H. pose proof (extract_try_extractable fs xml_path) as R.
  rewrite H in R. unfold show_details_window, extract_constellation_data.
  destruct (extract_try fs xml_path) as [c | e]; [discriminate |].
  exists e. split; reflexivity.
Qed.

(** X16. The whole path on a good file: when the file is extractable, its
    two angle texts have three numeric tokens each and neither angle in
    radians is infinite, [show_details_window] prints nothing and shows one
    figure with that one star, at the coordinates of the spherical
    formula, and the Earth. *)
Theorem show_details_window_plots
    (fs : filesystem) (w : world) (xml_path : string) (st : star)
    (ra dec : string) (h m s d dm ds : float) :
  extract_try fs xml_path = Ok [st] ->
  s_rightascension st = Some ra ->
  s_declination st = Some dec ->
  read_angle ra = Some (h, m, s) ->
  read_angle dec = Some (d, dm, ds) ->
  let ra_r := PyMath.radians (15 * (h + m / 60 + s / 3600)) in
  let dec_r :=
    PyMath.radians ((if d <? 0 then -1 else 1)
                    * (abs d + dm / 60 + ds / 3600)) in
  is_infinity ra_r = false ->
  is_infinity dec_r = false ->
  show_details_window fs w xml_path
  = (show (constellation_figure
             [(s_distance st * libm_cos dec_r * libm_cos ra_r,
               s_distance st * libm_cos dec_r * libm_sin ra_r,
               s_distance st * libm_sin dec_r)]
             [s_name st]) w,
     Ok tt).
Proof.
  intros Hx Era Edec Hra Hdec ra_r dec_r Fra Fdec.
  unfold show_details_window, extract_constellation_data. rewrite Hx.
  unfold draw_constellation. cbn [convert_all]. rewrite Era, Edec.
  rewrite (convert_to_cartesian_spherical _ _ _ _ _ _ _ _ _ Hra Hdec).
  rewrite spherical_finite by assumption. reflexivity.
Qed.

End PlottingFacts.

(** X15. The label of a button and the name on the plot come from the same
    element: when the scan lists a file under a name and extraction of the
    file succeeds, the extracted star carries that name. *)
Theorem listed_name_is_star_name
    (fs : filesystem) (w : world) (xml_path n : string) (l : list star) :
  listed_name fs xml_path = Some n ->
  snd (extract_constellation_data fs w xml_path) = Some l ->
  exists st, l = [st] /\ s_name st = Some n.
Proof.
  unfold listed_name, extract_constellation_data, extract_try.
  destruct (fs_parse fs xml_path) as [root |]; cbn; [| discriminate].
  destruct (Xml.find root "name") as [e |]; cbn; [| discriminate].
  destruct (Xml.text e) as [n' |] eqn:En; [| discriminate].
  destruct (is_empty n'); [discriminate |]. intros [= <-].
  destruct (Xml.text_of (Xml.find _ "rightascension")); cbn; [| discriminate].
  destruct (Xml.text_of (Xml.find _ "declination")); cbn; [| discriminate].
  destruct (Xml.text_of (Xml.find _ "distance")); cbn; [| discriminate].
  destruct (PyFloat.of_text _); cbn; [| discriminate].
  intros [= <-]. eexists. split; reflexivity.
Qed.

Lemma find_more_children (root : Xml.element) (extra : list Xml.element)
    (t : string) (e : Xml.element) :
  Xml.find root t = Some e ->
  Xml.find (with_more_children root extra) t = Some e.
Proof.
  unfold Xml.find, with_more_children. cbn [Xml.children].
  induction (Xml.children root) as [| x l IH]; cbn; [discriminate |].
  destruct (String.eqb (Xml.tag x) t); [trivial | exact IH].
Qed.

(** X17. Once a file yields a star, whatever is appended after the
    children of its root changes nothing: the same star is extracted,
    further stars in the file are never seen. *)
Theorem extract_ignores_later_children
    (fs fs' : filesystem) (xml_path : string) (root : Xml.element)
    (extra : list Xml.element) (c : list star) :
  fs_parse fs xml_path = Ok root ->
  fs_parse fs' xml_path = Ok (with_more_children root extra) ->
  extract_try fs xml_path = Ok c ->
  extract_try fs' xml_path = Ok c.
Proof.
  intros Hp Hp'. unfold extract_try. rewrite Hp, Hp'. cbn [Py.bind].
  destruct (Xml.find root "name") as [n |] eqn:En;
    [rewrite (find_more_children _ extra _ _ En) | discriminate].
  destruct (Xml.find root "rightascension") as [r |] eqn:Er;
    [rewrite (find_more_children _ extra _ _ Er) | discriminate].
  destruct (Xml.find root "declination") as [d |] eqn:Ed;
    [rewrite (find_more_children _ extra _ _ Ed) | discriminate].
  destruct (Xml.find root "distance") as [x |] eqn:Ex;
    [rewrite (find_more_children _ extra _ _ Ex) | discriminate].
  trivial.
Qed.

(** *** The further properties on the sample disk *)

Lemma draw_constellation_raises_witness :
  empty_world = empty_world
  /\ exists before st after,
       [ {| s_name := Some "Orion"; s_rightascension := Some "5 30 0";
            s_declination := Some "-1 12 0"; s_distance := 1.5 |};
         {| s_name := Some "Lyra"; s_rightascension := Some "abc";
            s_declination := Some "38 47 0"; s_distance := 7.7 |} ]
       = before ++ st :: after
       /\ Forall (fun s => raises (convert_star (libm := PyMath.poly_libm) s)
                           = false) before
       /\ convert_star (libm := PyMath.poly_libm) st
          = Raise (Exc ValueError "could not convert string to float: 'abc'").
Proof.
  exact (draw_constellation_raises (libm := PyMath.poly_libm)
           empty_world empty_world
           [ {| s_name := Some "Orion"; s_rightascension := Some "5 30 0";
                s_declination := Some "-1 12 0"; s_distance := 1.5 |};
             {| s_name := Some "Lyra"; s_rightascension := Some "abc";
                s_declination := Some "38 47 0"; s_distance := 7.7 |} ]
           (Exc ValueError "could not convert string to float: 'abc'")
           eq_refl).
Defined.

Lemma show_details_window_skips_witness :
  exists e,
    extract_try Samples.full "sys/anonymous.xml" = Raise e
    /\ show_details_window (libm := PyMath.poly_libm) Samples.full empty_world
         "sys/anonymous.xml"
       = (print ("Error extracting data from " ++ "sys/anonymous.xml" ++ ": "
                   ++ exc_str e) empty_world,
          Ok tt).
Proof.
  exact (show_details_window_skips (libm := PyMath.poly_libm)
           Samples.full empty_world "sys/anonymous.xml" eq_refl).
Defined.

Lemma show_details_window_plots_witness :
  let st :=
    {| s_name := Some "Orion"; s_rightascension := Some "5 30 0";
       s_declination := Some "-1 12 0"; s_distance := 1.5 |} in
  let ra_r := PyMath.radians (15 * (5 + 30 / 60 + 0 / 3600)) in
  let dec_r :=
    PyMath.radians ((if -1 <? 0 then -1 else 1)
                    * (abs (-1) + 12 / 60 + 0 / 3600)) in
  show_details_window (libm := PyMath.poly_libm) Samples.full empty_world
    "sys/orion.xml"
  = (show (constellation_figure
             [(s_distance st * PyMath.poly_cos dec_r * PyMath.poly_cos ra_r,
               s_distance st * PyMath.poly_cos dec_r * PyMath.poly_sin ra_r,
               s_distance st * PyMath.poly_sin dec_r)]
             [s_name st]) empty_world,
     Ok tt).
Proof.
  exact (show_details_window_plots (libm := PyMath.poly_libm)
           Samples.full empty_world "sys/orion.xml"
           {| s_name := Some "Orion"; s_rightascension := Some "5 30 0";
              s_declination := Some "-1 12 0"; s_distance := 1.5 |}
           "5 30 0" "-1 12 0" 5 30 0 (-1) 12 0
           eq_refl eq_refl eq_refl eq_refl eq_refl eq_refl eq_refl).
Defined.

Lemma listed_name_is_star_name_witness :
  exists st,
    [ {| s_name := Some "Castor"; s_rightascension := Some "7 34 36";
         s_declination := Some "31 53 18"; s_distance := 15.6 |} ] = [st]
    /\ s_name st = Some "Castor".
Proof.
  exact (listed_name_is_star_name Samples.full empty_world "sys/twins.xml"
           "Castor" _ eq_refl eq_refl).
Defined.

Lemma extract_ignores_later_children_witness :
  extract_try MoreSamples.orion_and_lyra "sys/orion.xml"
  = Ok [ {| s_name := Some "Orion"; s_rightascension := Some "5 30 0";
            s_declination := Some "-1 12 0"; s_distance := 1.5 |} ].
Proof.
  exact (extract_ignores_later_children Samples.full
           MoreSamples.orion_and_lyra "sys/orion.xml" Samples.orion
           (Xml.children Samples.bad_ra) _ eq_refl eq_refl eq_refl).
Defined.

(** ** Paths of the listed constellations *)

Lemma length_append (a b : string) :
  String.length (a ++ b) = (String.length a + String.length b)%nat.
Proof. induction a as [| c a IH]; cbn; [reflexivity | now rewrite IH]. Qed.

Lemma substring_skip_prefix (a b : string) (n k : nat) :
  substring (String.length a + n) k (a ++ b) = substring n k b.
Proof. induction a as [| c a IH]; cbn; [reflexivity | exact IH]. Qed.

Lemma endswith_append (a b suffix : string) :
  endswith b suffix = true -> endswith (a ++ b) suffix = true.
Proof.
  unfold endswith. intros H. apply andb_true_iff in H. destruct H as [Hk He].
  apply Nat.leb_le in Hk. rewrite length_append.
  apply andb_true_iff. split; [apply Nat.leb_le; lia |].
  replace (String.length a + String.length b - String.length suffix)%nat
    with (String.length a + (String.length b - String.length suffix))%nat
    by lia.
  now rewrite substring_skip_prefix.
Qed.

Lemma endswith_path_join (folder f suffix : string) :
  endswith f suffix = true -> endswith (path_join folder f) suffix = true.
Proof.
  intros H. unfold path_join.
  destruct (startswith f "/"); [exact H |].
  destruct (is_empty folder || endswith folder "/").
  - now apply endswith_append.
  - rewrite <- append_assoc. now apply endswith_append.
Qed.

(** X18. Every button [setup_ui] creates on a fresh window opens a path
    that ends in '.xml' and is the folder joined with an entry of the
    listing. *)
Theorem setup_ui_button_paths (fs : filesystem) (w : world) (folder : string) :
  Forall (fun b =>
            endswith (b_path b) ".xml" = true
            /\ exists f, In f (fs_listdir fs) /\ b_path b = path_join folder f)
         (buttons (snd (setup_ui fs w (new_window folder)))).
Proof.
  unfold setup_ui, load_constellations. rewrite load_loop_spec.
  unfold generate_buttons. rewrite generate_buttons_loop.
  cbn [snd new_window xml_folder constelaciones buttons button_layout app].
  apply Forall_map, Forall_flat_map, Forall_forall. intros f Hf.
  eapply Forall_impl; [| apply descriptors_of_named].
  intros d (_ & Hp & Hx). cbn. rewrite Hp. split.
  - now apply endswith_path_join.
  - now exists f.
Qed.
